(** * Job-hunting agent: command routing and per-turn handlers

    A shallow embedding of the routing core of the job agent
    ([agent/nodes/*.py], [agent/graph.py], [agent/state.py]) and of the
    response chunking of [bot/telegram_handler.py], together with the
    properties the specification states about them.

    Conventions of the embedding.
    - A Python [str] is a [string]; every [ascii] stands for one character.
      The model covers ASCII text: [lower] and [is_space] follow Python on
      code points below 128 and leave the others alone.  Emoji inside the
      message constants are carried as their UTF-8 bytes.
    - A Python [int] is a [Z]; lengths and positions of slices are [nat].
    - [Optional[T]] is [option T]; a job (a [dict] built from JSON) is a
      finite map from keys to [option string], where [None] is Python's
      [None].
    - The dict a node returns is a list of typed field updates ([delta]);
      the graph merges it into the state field by field.
    - Code that can raise returns a [res]; collaborators (HTTP services,
      the LLM, the PDF writer) are parameters. *)

From Stdlib Require Import ZArith NArith Ascii String.
From Stdlib Require Import DecimalString DecimalPos DecimalZ.
From stdpp Require Import gmap strings list.

Open Scope string_scope.
Open Scope Z_scope.

(** ** Python string operations used by the nodes *)

Module PyStr.

(** ["\n"] *)
Definition LF : string := String (ascii_of_nat 10) "".

(** [str.isspace] on one ASCII character: TAB..CR, FS..US and space. *)
Definition is_space (c : ascii) : bool :=
  let n := nat_of_ascii c in
  (Nat.leb 9 n && Nat.leb n 13) || (Nat.leb 28 n && Nat.leb n 32).

Definition is_digit (c : ascii) : bool :=
  let n := nat_of_ascii c in Nat.leb 48 n && Nat.leb n 57.

Definition lower_char (c : ascii) : ascii :=
  let n := nat_of_ascii c in
  if Nat.leb 65 n && Nat.leb n 90 then ascii_of_nat (n + 32) else c.

(** [s.lower()] *)
Fixpoint lower (s : string) : string :=
  match s with
  | "" => ""
  | String c s' => String (lower_char c) (lower s')
  end.

Fixpoint all_chars (p : ascii -> bool) (s : string) : bool :=
  match s with
  | "" => true
  | String c s' => p c && all_chars p s'
  end.

(** [s.lstrip()], [s.rstrip()], [s.strip()] *)
Fixpoint lstrip (s : string) : string :=
  match s with
  | "" => ""
  | String c s' => if is_space c then lstrip s' else s
  end.

Fixpoint rstrip (s : string) : string :=
  match s with
  | "" => ""
  | String c s' =>
      match rstrip s' with
      | "" => if is_space c then "" else String c ""
      | r => String c r
      end
  end.

Definition strip (s : string) : string := rstrip (lstrip s).

(** [s.startswith(p)] *)
Definition startswith (s p : string) : bool := String.prefix p s.

(** [s.replace(old, new)] for a non-empty [old]: occurrences are replaced
    from left to right and do not overlap.  [skip] counts the characters
    of a matched occurrence that remain to be dropped. *)
Fixpoint replace_from (old new : string) (skip : nat) (s : string) : string :=
  match s with
  | "" => ""
  | String c s' =>
      match skip with
      | S k => replace_from old new k s'
      | O =>
          if String.prefix old s
          then new ++ replace_from old new (String.length old - 1) s'
          else String c (replace_from old new 0 s')
      end
  end.

Definition replace (s old new : string) : string := replace_from old new 0 s.

(** [s.split()]: split on runs of whitespace, no empty pieces.  [cur] is
    the piece being read. *)
Fixpoint split_from (cur : string) (s : string) : list string :=
  match s with
  | "" => match cur with "" => [] | _ => [cur] end
  | String c s' =>
      if is_space c
      then match cur with
           | "" => split_from "" s'
           | _ => cur :: split_from "" s'
           end
      else split_from (cur ++ String c "") s'
  end.

Definition split (s : string) : list string := split_from "" s.

(** [sep.join(parts)] *)
Definition join (sep : string) (parts : list string) : string :=
  String.concat sep parts.

(** [s[:n]] and [s[i:i+n]] for non-negative bounds. *)
Definition slice_to (n : nat) (s : string) : string := String.substring 0 n s.
Definition slice (i n : nat) (s : string) : string := String.substring i n s.

(** [int(s)] in base 10: surrounding whitespace, an optional sign, then
    digits, where single underscores may separate digits.  [None] is
    [ValueError]. *)
Definition digit_of (c : ascii) : option N :=
  if is_digit c then Some (N.of_nat (nat_of_ascii c) - 48)%N else None.

Fixpoint int_digits (after_digit : bool) (acc : N) (s : string) : option N :=
  match s with
  | "" => if after_digit then Some acc else None
  | String c s' =>
      match digit_of c with
      | Some d => int_digits true (10 * acc + d)%N s'
      | None =>
          if Ascii.eqb c "_" && after_digit then int_digits false acc s'
          else None
      end
  end.

Definition int_signed (s : string) : option Z :=
  match s with
  | "" => None
  | String c r =>
      if Ascii.eqb c "-" then (fun v => - Z.of_N v) <$> int_digits false 0%N r
      else if Ascii.eqb c "+" then Z.of_N <$> int_digits false 0%N r
      else Z.of_N <$> int_digits false 0%N s
  end.

Definition int (s : string) : option Z := int_signed (strip s).

(** [str(n)] and [f"{n}"] for an integer. *)
Definition str (n : Z) : string := NilEmpty.string_of_int (Z.to_int n).

(** [f"{v}"] for an optional string: [None] prints as ["None"]. *)
Definition fmt (v : option string) : string :=
  match v with Some s => s | None => "None" end.

(** Truth value of an optional string: [None] and [""] are false. *)
Definition truthy (v : option string) : bool :=
  match v with Some (String _ _) => true | _ => false end.

End PyStr.

(** ** Exceptions and results *)

Inductive exn : Type :=
| KeyError (key : string)
| IndexError
| TypeError
| Exception (msg : string).

(** [str(e)] for a caught exception. *)
Definition exn_str (e : exn) : string :=
  match e with
  | KeyError k => "'" ++ k ++ "'"
  | IndexError => "list index out of range"
  | TypeError => "'NoneType' object is not subscriptable"
  | Exception msg => msg
  end.

Inductive res (A : Type) : Type :=
| Ok (a : A)
| Raise (e : exn).
Arguments Ok {A} a.
Arguments Raise {A} e.

#[global] Instance res_ret : MRet res := fun A a => Ok a.

#[global] Instance res_bind : MBind res := fun A B k m =>
  match m with
  | Ok a => k a
  | Raise e => Raise e
  end.

(** [try: body except Exception as e: handler(e)] *)
Definition try_except {A : Type} (body : res A) (handler : exn -> A) : A :=
  match body with
  | Ok a => a
  | Raise e => handler e
  end.

(** ** Data model ([agent/state.py]) *)

(** A job as the job boards return it: a JSON object whose values are
    strings or null. *)
Abbreviation job := (gmap string (option string)).

(** [d.get(k)], [d.get(k, dflt)] and [d[k]]. *)
Definition dict_get (d : job) (k : string) : option string :=
  default None (d !! k).

Definition dict_get_or (d : job) (k : string) (dflt : string) : option string :=
  default (Some dflt) (d !! k).

Definition dict_item (d : job) (k : string) : res (option string) :=
  match d !! k with
  | Some v => Ok v
  | None => Raise (KeyError k)
  end.

(** [l[i]] with Python's negative positions; out of range raises. *)
Definition py_getitem {A : Type} (l : list A) (i : Z) : res A :=
  let n := Z.of_nat (length l) in
  let pos := if i <? 0 then i + n else i in
  if (pos <? 0) || (n <=? pos) then Raise IndexError
  else match l !! Z.to_nat pos with
       | Some a => Ok a
       | None => Raise IndexError
       end.

(** Entries of the [messages] list: LangChain messages carry [content];
    anything else is rendered with [str]. *)
Inductive message : Type :=
| HumanMessage (content : string)
| AIMessage (content : string)
| PlainText (text : string).

Definition message_text (m : message) : string :=
  match m with
  | HumanMessage c => c
  | AIMessage c => c
  | PlainText t => t
  end.

Record JobAgentState : Type := mkState {
  telegram_user_id : string;
  base_resume : option string;
  search_query : option string;
  location : option string;
  jobs_found : list job;
  selected_job_index : option Z;
  selected_job : option job;
  customized_resume : option string;
  cover_letter : option string;
  composed_pdf_path : option string;
  sheets_exported : bool;
  sheets_url : option string;
  messages : list message;
  current_action : string;
  response : string;
  error : option string
}.

Definition create_initial_state (user_id : string) : JobAgentState :=
  {| telegram_user_id := user_id;
     base_resume := None;
     search_query := None;
     location := None;
     jobs_found := [];
     selected_job_index := None;
     selected_job := None;
     customized_resume := None;
     cover_letter := None;
     composed_pdf_path := None;
     sheets_exported := false;
     sheets_url := None;
     messages := [];
     current_action := "";
     response := "";
     error := None |}.

(** One entry of the dict a node returns. *)
Inductive update : Type :=
| Set_current_action (a : string)
| Set_response (r : string)
| Set_error (e : option string)
| Set_search_query (q : string)
| Set_location (l : string)
| Set_selected_job_index (i : Z)
| Set_jobs_found (js : list job)
| Set_selected_job (j : job)
| Set_customized_resume (t : string)
| Set_cover_letter (t : string)
| Set_composed_pdf_path (p : string)
| Set_sheets_exported (b : bool)
| Set_sheets_url (u : string).

Abbreviation delta := (list update).

(** The graph writes a returned entry over the field of the same name and
    leaves every other field alone. *)
Definition apply_update (s : JobAgentState) (u : update) : JobAgentState :=
  let 'mkState uid br sq loc jf sji sj cr cl pdf se su ms ca rsp err := s in
  match u with
  | Set_current_action a => mkState uid br sq loc jf sji sj cr cl pdf se su ms a rsp err
  | Set_response r => mkState uid br sq loc jf sji sj cr cl pdf se su ms ca r err
  | Set_error e => mkState uid br sq loc jf sji sj cr cl pdf se su ms ca rsp e
  | Set_search_query q => mkState uid br (Some q) loc jf sji sj cr cl pdf se su ms ca rsp err
  | Set_location l => mkState uid br sq (Some l) jf sji sj cr cl pdf se su ms ca rsp err
  | Set_selected_job_index i => mkState uid br sq loc jf (Some i) sj cr cl pdf se su ms ca rsp err
  | Set_jobs_found js => mkState uid br sq loc js sji sj cr cl pdf se su ms ca rsp err
  | Set_selected_job j => mkState uid br sq loc jf sji (Some j) cr cl pdf se su ms ca rsp err
  | Set_customized_resume t => mkState uid br sq loc jf sji sj (Some t) cl pdf se su ms ca rsp err
  | Set_cover_letter t => mkState uid br sq loc jf sji sj cr (Some t) pdf se su ms ca rsp err
  | Set_composed_pdf_path p => mkState uid br sq loc jf sji sj cr cl (Some p) se su ms ca rsp err
  | Set_sheets_exported b => mkState uid br sq loc jf sji sj cr cl pdf b su ms ca rsp err
  | Set_sheets_url u => mkState uid br sq loc jf sji sj cr cl pdf se (Some u) ms ca rsp err
  end.

Definition apply_delta (s : JobAgentState) (d : delta) : JobAgentState :=
  fold_left apply_update d s.

(** The value a returned dict holds for a key, if the key is there. *)
Definition delta_jobs_found (d : delta) : option (list job) :=
  last (omap (fun u => match u with Set_jobs_found js => Some js | _ => None end) d).

Definition delta_customized_resume (d : delta) : option string :=
  last (omap (fun u => match u with Set_customized_resume t => Some t | _ => None end) d).

Definition delta_cover_letter (d : delta) : option string :=
  last (omap (fun u => match u with Set_cover_letter t => Some t | _ => None end) d).

Definition delta_composed_pdf_path (d : delta) : option string :=
  last (omap (fun u => match u with Set_composed_pdf_path p => Some p | _ => None end) d).


Definition delta_error (d : delta) : option (option string) :=
  last (omap (fun u => match u with Set_error e => Some e | _ => None end) d).

Definition delta_response (d : delta) : option string :=
  last (omap (fun u => match u with Set_response r => Some r | _ => None end) d).

(** ** The router ([agent/nodes/router.py]) and the dispatch ([agent/graph.py]) *)

Import PyStr.

Definition HELP_MESSAGE : string :=
"🤖 **Job Agent Bot Commands**

**/search `<keywords>` `<location>`**
Search for jobs. Example: `/search python developer remote`

**/customize `<job_number>`**
Customize your resume for a specific job from search results.
Example: `/customize 1`

**/compose**
Compose your customized resume and cover letter into a professional PDF for download.

**/export**
Export all found jobs to your Google Sheet.

**/more**
Find more jobs from other platforms (Remotive, etc.) based on your last search.

**/resume**
Upload a new resume (send as file after this command).

**/chat `<any message>`**
Chat with me! Ask for job suggestions, career advice, or why you should apply to certain jobs.

**/help**
Show this help message.

---
💡 **Quick Start:**
1. Upload your resume with /resume
2. Search jobs with /search
3. Pick a job number to customize your resume
4. Compose your professional PDF with /compose
5. Export all jobs to Google Sheets with /export
".

Definition START_MESSAGE : string :=
"👋 **Welcome to Job Agent Bot!**

I help you find jobs, customize your resume, and track applications.

**Before we start:**
1. Make sure your `.env` file has all API keys configured
2. Upload your base resume using /resume

Use /help to see all available commands.

🚀 Ready when you are!
".

Definition SEARCH_USAGE : string :=
  "❌ Usage: /search `<keywords>` `<location>`" ++ LF ++
  "Example: /search python developer remote".

Definition CUSTOMIZE_USAGE : string :=
  "❌ Usage: /customize `<job_number>`" ++ LF ++ "Example: /customize 1".

Definition CUSTOMIZE_INVALID : string :=
  "❌ Please provide a valid job number." ++ LF ++ "Example: /customize 1".

Definition RESUME_PROMPT : string :=
  "📄 Please send your resume file (PDF, DOCX, or TXT) as a reply to this message.".

Definition location_keywords : list string := ["remote"; "hybrid"; "onsite"].

(** [x in l] for a list of strings. *)
Definition str_in (x : string) (l : list string) : bool :=
  existsb (String.eqb x) l.

(** The tokens the search branch reads: [text.replace("/search", "").strip().split()]. *)
Definition search_parts (text : string) : list string :=
  split (strip (replace text "/search" "")).

Definition customize_parts (text : string) : list string :=
  split (strip (replace text "/customize" "")).

Definition router_node (state : JobAgentState) : delta :=
  match last (messages state) with
  | None => [Set_current_action "help"; Set_response HELP_MESSAGE]
  | Some last_message =>
      let text := lower (strip (message_text last_message)) in
      if startswith text "/start" then
        [Set_current_action "start"; Set_response START_MESSAGE]
      else if startswith text "/help" then
        [Set_current_action "help"; Set_response HELP_MESSAGE]
      else if startswith text "/search" then
        let parts := search_parts text in
        if (length parts <? 1)%nat then
          [Set_current_action "help"; Set_response SEARCH_USAGE]
        else
          let '(keywords, location) :=
            if str_in (lower (List.last parts "")) location_keywords
               || (2 <? length parts)%nat
            then (join " " (removelast parts), List.last parts "")
            else (join " " parts, "remote") in
          [Set_current_action "search"; Set_search_query keywords;
           Set_location location]
      else if startswith text "/customize" then
        match customize_parts text with
        | [] => [Set_current_action "help"; Set_response CUSTOMIZE_USAGE]
        | part0 :: _ =>
            match int part0 with
            | Some n =>
                [Set_current_action "customize"; Set_selected_job_index (n - 1)]
            | None =>
                [Set_current_action "help"; Set_response CUSTOMIZE_INVALID]
            end
        end
      else if startswith text "/export" then [Set_current_action "export"]
      else if startswith text "/resume" then
        [Set_current_action "help"; Set_response RESUME_PROMPT]
      else if startswith text "/chat" then [Set_current_action "chat"]
      else if startswith text "/more" then [Set_current_action "more"]
      else if startswith text "/compose" then [Set_current_action "compose"]
      else
        match int text with
        | Some n =>
            [Set_current_action "customize"; Set_selected_job_index (n - 1)]
        | None => [Set_current_action "chat"]
        end
  end.

(** LangGraph's [END]. *)
Definition END : string := "__end__".

Definition route_action (state : JobAgentState) : string :=
  let action := current_action state in
  if String.eqb action "search" then "job_search"
  else if String.eqb action "customize" then "customizer"
  else if String.eqb action "export" then "exporter"
  else if String.eqb action "chat" then "chat"
  else if String.eqb action "more" then "more"
  else if String.eqb action "compose" then "composer"
  else if String.eqb action "help" then END
  else if String.eqb action "start" then END
  else END.

(** The state a turn starts from once the transport stored the inbound
    text: [state["messages"] = [HumanMessage(content=text)]]. *)
Definition with_message (state : JobAgentState) (text : string) : JobAgentState :=
  let 'mkState uid br sq loc jf sji sj cr cl pdf se su _ ca rsp err := state in
  mkState uid br sq loc jf sji sj cr cl pdf se su [HumanMessage text] ca rsp err.

(** ** The search handler ([agent/nodes/job_search.py]) *)

(** What [JoobleAPI.search_jobs] returns: the keys [jobs] and [totalCount],
    and the key [error] when the request failed. *)
Record SearchResult : Type := mkSearchResult {
  result_jobs : list job;
  result_totalCount : Z;
  result_error : option string
}.

(** [JoobleAPI.format_job]; slicing a null snippet raises. *)
Definition format_job (job : job) (index : Z) : res string :=
  let title := dict_get_or job "title" "Unknown Title" in
  let company := dict_get_or job "company" "Unknown Company" in
  let location := dict_get_or job "location" "Unknown Location" in
  let salary := dict_get_or job "salary" "Not specified" in
  snippet ← match dict_get_or job "snippet" "" with
            | Some t => Ok (slice_to 150 t)
            | None => Raise TypeError
            end;
  let link := dict_get_or job "link" "" in
  Ok (str index ++ ". " ++ fmt title ++ LF ++
      "🏢 " ++ fmt company ++ LF ++
      "📍 " ++ fmt location ++ LF ++
      "💰 " ++ fmt salary ++ LF ++
      "📝 " ++ snippet ++ "..." ++ LF ++
      "🔗 " ++ fmt link ++ LF).

(** [for i, job in enumerate(jobs, i): formatted += format_job(job, i) + "\n"] *)
Fixpoint format_jobs (jobs : list job) (i : Z) (formatted : string) : res string :=
  match jobs with
  | [] => Ok formatted
  | job :: rest =>
      line ← format_job job i;
      format_jobs rest (i + 1) (formatted ++ line ++ LF)
  end.

Section JobSearch.

(** [JoobleAPI().search_jobs(query, location)] *)
Variable search_jobs : string -> option string -> SearchResult.

Definition job_search_node (state : JobAgentState) : res delta :=
  let query := search_query state in
  let location := location state in
  match query with
  | None | Some "" =>
      Ok [Set_response ("❌ Please provide search keywords." ++ LF ++
                        "Example: /search python developer remote");
          Set_error (Some "No search query provided")]
  | Some query =>
      let result := search_jobs query location in
      match result_error result with
      | Some err =>
          Ok [Set_response ("❌ Search failed: " ++ err);
              Set_error (Some err);
              Set_jobs_found []]
      | None =>
          let jobs := result_jobs result in
          let total := result_totalCount result in
          match jobs with
          | [] =>
              Ok [Set_response ("🔍 No jobs found for '" ++ query ++ "' in '" ++
                                fmt location ++ "'." ++ LF ++
                                "Try different keywords or location.");
                  Set_jobs_found [];
                  Set_error None]
          | _ =>
              let formatted :=
                "🔍 *Found " ++ str total ++
                " recent jobs (last 3 days) for '" ++ query ++ "' in '" ++
                fmt location ++ "':*" ++ LF ++ LF in
              formatted ← format_jobs (take 10 jobs) 1 formatted;
              let formatted :=
                formatted ++ LF ++
                "💡 Reply with /customize <number> to customize your resume for a job." in
              Ok [Set_jobs_found (take 10 jobs);
                  Set_response formatted;
                  Set_error None]
          end
      end
  end.

End JobSearch.

(** ** The customize handler ([agent/nodes/customizer.py]) *)

(** The calls of [GroqLLM]; each may raise. *)
Record LLM : Type := mkLLM {
  customize_resume : string -> string -> res string;
  generate_cover_letter : string -> string -> option string -> res string;
  chat : list message -> string -> res string
}.

Definition job_description (selected_job : job) : string :=
  LF ++ "Title: " ++ fmt (dict_get_or selected_job "title" "") ++ LF ++
  "Company: " ++ fmt (dict_get_or selected_job "company" "") ++ LF ++
  "Location: " ++ fmt (dict_get_or selected_job "location" "") ++ LF ++
  "Description: " ++ fmt (dict_get_or selected_job "snippet" "") ++ LF.

Definition documents_response (selected_job : job)
    (customized_resume cover_letter : string) : string :=
  let job_title := dict_get_or selected_job "title" "Unknown" in
  let company := dict_get_or selected_job "company" "Unknown" in
  "✅ *Documents Generated for " ++ fmt job_title ++ " at " ++ fmt company ++ "*" ++ LF ++
  LF ++
  "📄 *Customized Resume:*" ++ LF ++
  slice_to 2000 customized_resume ++ "..." ++ LF ++
  LF ++
  "📝 *Cover Letter:*" ++ LF ++
  slice_to 1500 cover_letter ++ "..." ++ LF ++
  LF ++
  "💡 Use /export to save all jobs to Google Sheets." ++ LF ++
  "🔗 Apply here: " ++ fmt (dict_get_or selected_job "link" "N/A") ++ LF.

Section Customizer.

(** [GroqLLM()]: building the client may raise as well. *)
Variable GroqLLM : res LLM.

(** The body of the [try] block. *)
Definition generate_documents (resume : string) (selected_job : job) : res delta :=
  let job_desc := job_description selected_job in
  llm ← GroqLLM;
  customized_resume ← customize_resume llm resume job_desc;
  cover_letter ← generate_cover_letter llm resume job_desc
                    (dict_get_or selected_job "company" "the company");
  Ok [Set_selected_job selected_job;
      Set_customized_resume customized_resume;
      Set_cover_letter cover_letter;
      Set_response (documents_response selected_job customized_resume cover_letter);
      Set_error None].

Definition customizer_node (state : JobAgentState) : res delta :=
  let job_index := selected_job_index state in
  let jobs := jobs_found state in
  let resume := base_resume state in
  match job_index with
  | None =>
      Ok [Set_response "❌ No job selected. Use /customize <number> after searching.";
          Set_error (Some "No job selected")]
  | Some job_index =>
      match jobs with
      | [] =>
          Ok [Set_response "❌ No jobs in search results. Use /search first.";
              Set_error (Some "No jobs found")]
      | _ =>
          if (job_index <? 0) || (Z.of_nat (length jobs) <=? job_index) then
            Ok [Set_response ("❌ Invalid job number. Please choose 1-" ++
                              str (Z.of_nat (length jobs)) ++ ".");
                Set_error (Some "Invalid job index")]
          else
            match resume with
            | None | Some "" =>
                Ok [Set_response
                      "❌ No resume uploaded. Please send your resume file first with /resume.";
                    Set_error (Some "No resume")]
            | Some resume =>
                selected_job ← py_getitem jobs job_index;
                Ok (try_except (generate_documents resume selected_job)
                      (fun e =>
                         [Set_response ("❌ Error generating documents: " ++ exn_str e);
                          Set_error (Some (exn_str e))]))
            end
      end
  end.

End Customizer.

(** ** The compose handler ([agent/nodes/composer.py]) *)

Section Composer.

(** [compose_docs(state)] writes the PDF and returns its path;
    [os.path.exists] looks the path up. *)
Variable compose_docs : JobAgentState -> res string.
Variable path_exists : string -> bool.

(** The body of the [try] block. *)
Definition compose_pdf (state : JobAgentState) : res delta :=
  pdf_path ← compose_docs state;
  if path_exists pdf_path then
    Ok [Set_composed_pdf_path pdf_path;
        Set_response
          ("✨ **Professional Job Application Composed!**" ++ LF ++ LF ++
           "I've combined your customized resume and cover letter into a well-managed PDF. Sending the file to you now...");
        Set_error None]
  else
    Ok [Set_response "❌ Failed to generate PDF document.";
        Set_error (Some "File not created")].

Definition composer_node (state : JobAgentState) : delta :=
  let custom_resume := customized_resume state in
  let cover_letter := cover_letter state in
  if negb (truthy custom_resume) || negb (truthy cover_letter) then
    [Set_response
       "❌ No customized resume or cover letter found. Please use /customize first.";
     Set_error (Some "Missing documents for composition")]
  else
    try_except (compose_pdf state)
      (fun e =>
         [Set_response ("❌ Error composing document: " ++ exn_str e);
          Set_error (Some (exn_str e))]).

End Composer.

(** ** The export handler ([agent/nodes/exporter.py]) *)

(** What the handler uses of a [SheetsWriter]: its [error] and [client]
    attributes (the latter as "is not [None]") and two calls. *)
Record Writer : Type := mkWriter {
  writer_error : option string;
  writer_client : bool;
  add_jobs_batch : list job -> res Z;
  get_sheet_url : res string
}.

Section Exporter.

(** [SheetsWriter()] *)
Variable SheetsWriter : res Writer.

(** The body of the [try] block. *)
Definition export_jobs (jobs : list job) : res delta :=
  writer ← SheetsWriter;
  if truthy (writer_error writer) then
    Ok [Set_response
          ("❌ Google Sheets error: " ++ fmt (writer_error writer) ++ LF ++ LF ++
           "💡 Ensure your sheet is shared as 'Editor' with the service account email or 'Anyone with the link: Editor'.");
        Set_error (writer_error writer)]
  else if negb (writer_client writer) then
    Ok [Set_response
          "❌ Google Sheets client not initialized. Check your credentials.";
        Set_error (Some "Sheets not initialized")]
  else
    count ← add_jobs_batch writer jobs;
    sheet_url ← get_sheet_url writer;
    if 0 <? count then
      Ok [Set_sheets_exported true;
          Set_sheets_url sheet_url;
          Set_response
            ("✅ **Exported " ++ str count ++ " jobs to Google Sheets!**" ++ LF ++
             LF ++
             "📊 [Open your spreadsheet](" ++ sheet_url ++ ")" ++ LF ++
             LF ++
             "💡 Data was inserted at the top of the sheet (Row 2). " ++ LF ++
             "If it's not appearing, please check for a tab named **'Jobs'** at the bottom." ++ LF);
          Set_error None]
    else
      Ok [Set_response
            ("❌ Failed to export jobs. Found " ++ str (Z.of_nat (length jobs)) ++
             " jobs in session, but could not write to sheet. Check your Google Sheets permissions and tab name ('Jobs').");
          Set_error (Some "Export failed")].

Definition exporter_node (state : JobAgentState) : delta :=
  let jobs := jobs_found state in
  match jobs with
  | [] =>
      [Set_response "❌ No jobs to export. Use /search first to find jobs.";
       Set_error (Some "No jobs to export")]
  | _ =>
      try_except (export_jobs jobs)
        (fun e =>
           [Set_response
              ("❌ Export error: " ++ exn_str e ++ LF ++ LF ++
               "Please ensure your Google Sheet is shared as 'Editor' with the service account email.");
            Set_error (Some (exn_str e))])
  end.

End Exporter.

(** ** The chat handler ([agent/nodes/chat.py]) *)

(** [for i, job in enumerate(jobs, i): context += ...] *)
Fixpoint chat_jobs_context (jobs : list job) (i : Z) (context : string) : string :=
  match jobs with
  | [] => context
  | j :: rest =>
      chat_jobs_context rest (i + 1)
        (context ++ str i ++ ". " ++ fmt (dict_get j "title") ++ " at " ++
         fmt (dict_get j "company") ++ " (" ++ fmt (dict_get j "location") ++ ")" ++ LF)
  end.

(** The context the handler builds for the model. *)
Definition chat_context (state : JobAgentState) : string :=
  let resume := base_resume state in
  let jobs := jobs_found state in
  let context := "Candidate's Resume:" ++ LF ++ fmt resume ++ LF ++ LF in
  match jobs with
  | [] => context ++ "No jobs currently found in the session."
  | _ => chat_jobs_context jobs 1 (context ++ "Found Jobs:" ++ LF)
  end.

Section Chat.

Variable GroqLLM : res LLM.

(** The body of the [try] block. *)
Definition chat_reply (state : JobAgentState) : res delta :=
  llm ← GroqLLM;
  response ← chat llm (messages state) (chat_context state);
  Ok [Set_response response; Set_error None].

Definition chat_node (state : JobAgentState) : delta :=
  try_except (chat_reply state)
    (fun e =>
       [Set_response ("❌ Error in chat: " ++ exn_str e);
        Set_error (Some (exn_str e))]).

End Chat.

(** ** The fetch-more handler ([agent/nodes/more_jobs.py]) and the Remotive
       adapter it calls ([tools/extra_jobs_api.py]) *)

(** What [requests.get] gives [search_remotive]: a status code with the
    [jobs] array of the JSON body, or an exception. *)
Inductive http_reply : Type :=
| HttpReply (status_code : Z) (jobs : list job)
| HttpFailure.

Definition remotive_entry (raw : job) (pub_date_str : string) : job :=
  list_to_map
    [("title", dict_get raw "title");
     ("company", dict_get raw "company_name");
     ("location", Some "Remote");
     ("salary", dict_get_or raw "salary" "Not specified");
     ("link", dict_get raw "url");
     ("source", Some "Remotive");
     ("updated", Some pub_date_str)].

(** [j.get("link")], the key jobs are compared by. *)
Definition link_of (j : job) : option string := dict_get j "link".

(** [for j in jobs: if j.get("link") not in seen_links: append; add] *)
Fixpoint add_unseen (jobs all_extra_jobs : list job) (seen_links : gset (option string))
    : list job * gset (option string) :=
  match jobs with
  | [] => (all_extra_jobs, seen_links)
  | j :: rest =>
      if decide (link_of j ∈ seen_links)
      then add_unseen rest all_extra_jobs seen_links
      else add_unseen rest (all_extra_jobs ++ [j]) ({[link_of j]} ∪ seen_links)
  end.

(** The same loop with the [break] once 20 jobs are held. *)
Fixpoint add_unseen_capped (jobs all_extra_jobs : list job)
    (seen_links : gset (option string)) : list job * gset (option string) :=
  match jobs with
  | [] => (all_extra_jobs, seen_links)
  | j :: rest =>
      if decide (link_of j ∈ seen_links)
      then add_unseen_capped rest all_extra_jobs seen_links
      else
        let all_extra_jobs := (all_extra_jobs ++ [j])%list in
        let seen_links := {[link_of j]} ∪ seen_links in
        if (20 <=? length all_extra_jobs)%nat then (all_extra_jobs, seen_links)
        else add_unseen_capped rest all_extra_jobs seen_links
  end.

(** The fallback that looks for the last search command in the history;
    [msgs] is [reversed(messages)]. *)
Fixpoint recover_query (msgs : list message) : option string :=
  match msgs with
  | [] => None
  | msg :: rest =>
      let content := message_text msg in
      if startswith content "/search" then
        match split (strip (replace content "/search" "")) with
        | [] => recover_query rest
        | (part0 :: _) as parts =>
            Some (if (1 <? length parts)%nat then join " " (removelast parts)
                  else part0)
        end
      else recover_query rest
  end.

(** One line group of the fetch-more listing; [job['title']] and the like
    raise [KeyError] on a missing key. *)
Fixpoint format_extra_jobs (jobs : list job) (i : Z) (full_response : string)
    : res string :=
  match jobs with
  | [] => Ok full_response
  | job :: rest =>
      title ← dict_item job "title";
      company ← dict_item job "company";
      link ← dict_item job "link";
      format_extra_jobs rest (i + 1)
        (full_response ++
         str i ++ ". " ++ fmt title ++ LF ++
         "🏢 " ++ fmt company ++ " (via " ++ fmt (dict_get_or job "source" "Other") ++ ")" ++ LF ++
         "💰 " ++ fmt (dict_get_or job "salary" "Not specified") ++ LF ++
         "🔗 " ++ fmt link ++ LF ++ LF)
  end.

Section MoreJobs.

(** The outside world the Google search talks to. *)
Context {World : Type}.

(** [requests.get(remotive_url, params={"search": keywords, "limit": limit})] *)
Variable remotive_get : string -> nat -> http_reply.
(** [datetime.fromisoformat(pub_date_str.replace("Z", "")) >= three_days_ago];
    an unreadable date raises. *)
Variable published_recently : string -> res bool.
(** [LLMQueryExpander().expand_query(query)] *)
Variable expand_query : string -> list string.
(** [ExtraJobsAPI().search_google(var, location)] *)
Variable search_google : string -> option string -> World -> list job * World.

Fixpoint remotive_recent (limit : nat) (jobs recent_jobs : list job) : list job :=
  match jobs with
  | [] => recent_jobs
  | job :: rest =>
      let recent_jobs :=
        match dict_get job "publication_date" with
        | Some (String _ _ as pub_date_str) =>
            match published_recently pub_date_str with
            | Ok false => recent_jobs
            | Ok true | Raise _ => (recent_jobs ++ [remotive_entry job pub_date_str])%list
            end
        | _ => recent_jobs
        end in
      if (limit <=? length recent_jobs)%nat then recent_jobs
      else remotive_recent limit rest recent_jobs
  end.

Definition search_remotive (keywords : string) (limit : nat) : list job :=
  match remotive_get keywords limit with
  | HttpReply status_code jobs =>
      if status_code =? 200 then remotive_recent limit jobs [] else []
  | HttpFailure => []
  end.

(** [for var in variations: ...]: no search is made once 15 jobs are held. *)
Fixpoint search_variations (variations : list string) (location : option string)
    (all_extra_jobs : list job) (seen_links : gset (option string)) (w : World)
    : list job * gset (option string) * World :=
  match variations with
  | [] => (all_extra_jobs, seen_links, w)
  | var :: rest =>
      if (15 <=? length all_extra_jobs)%nat then (all_extra_jobs, seen_links, w)
      else
        let '(google_jobs, w) := search_google var location w in
        let '(all_extra_jobs, seen_links) :=
          add_unseen_capped google_jobs all_extra_jobs seen_links in
        search_variations rest location all_extra_jobs seen_links w
  end.

(** Lines 43-70: the jobs a turn gathers. *)
Definition collect_extra_jobs (state : JobAgentState) (query : string)
    (variations : list string) (w : World) : list job * World :=
  let location := location state in
  let seen_links : gset (option string) :=
    list_to_set (link_of <$> jobs_found state) in
  let remotive_jobs := search_remotive query 10 in
  let '(all_extra_jobs, seen_links) := add_unseen remotive_jobs [] seen_links in
  let '(all_extra_jobs, _, w) :=
    search_variations variations location all_extra_jobs seen_links w in
  (all_extra_jobs, w).

Definition more_jobs_node (state : JobAgentState) (w : World) : res delta :=
  let query := search_query state in
  let query :=
    if truthy query then query
    else match recover_query (rev (messages state)) with
         | Some q => Some q
         | None => query
         end in
  match query with
  | None | Some "" =>
      Ok [Set_response "❌ No previous search found. Please use /search first.";
          Set_error (Some "No query found for more jobs")]
  | Some query =>
      let variations := expand_query query in
      let '(all_extra_jobs, _) := collect_extra_jobs state query variations w in
      match all_extra_jobs with
      | [] =>
          Ok [Set_response ("🔍 No additional recent jobs found for '" ++ query ++
                            "' or related fields.");
              Set_error None]
      | _ =>
          let current_jobs := jobs_found state in
          let start_index := Z.of_nat (length current_jobs) + 1 in
          let updated_jobs := (current_jobs ++ all_extra_jobs)%list in
          let variations_str := join ", " (take 3 (drop 1 variations)) in
          let full_response :=
            "🚀 **Smart Variety Search for '" ++ query ++ "':**" ++ LF ++
            "💡 Also searched for: _" ++ variations_str ++ "_" ++ LF ++ LF in
          full_response ← format_extra_jobs all_extra_jobs start_index full_response;
          let full_response :=
            full_response ++ "✅ Found " ++ str (Z.of_nat (length all_extra_jobs)) ++
            " extra jobs! Use /customize <number> to pick one." in
          Ok [Set_jobs_found updated_jobs;
              Set_response full_response;
              Set_error None]
      end
  end.

End MoreJobs.

(** ** Delivery of a long response ([bot/telegram_handler.py]) *)

(** [range(start, stop, step)] for a positive step; [fuel] bounds the
    number of elements and [stop] is always enough. *)
Fixpoint range_from (fuel start stop step : nat) : list nat :=
  match fuel with
  | O => []
  | S fuel' =>
      if (start <? stop)%nat then start :: range_from fuel' (start + step) stop step
      else []
  end.

Definition py_range (start stop step : nat) : list nat :=
  range_from stop start stop step.

Definition CHUNK : nat := 4000.

(** The texts [customize_command] hands to [reply_text], in order. *)
Definition reply_chunks (response : string) : list string :=
  if (CHUNK <? String.length response)%nat then
    (fun i => slice i CHUNK response) <$> py_range 0 (String.length response) CHUNK
  else [response].

(** ** The graph ([agent/graph.py]): router, one handler, end *)

(** Everything outside the program that a turn may call. *)
Record Collaborators (World : Type) : Type := mkCollaborators {
  co_search_jobs : string -> option string -> SearchResult;
  co_GroqLLM : res LLM;
  co_SheetsWriter : res Writer;
  co_compose_docs : JobAgentState -> res string;
  co_path_exists : string -> bool;
  co_remotive_get : string -> nat -> http_reply;
  co_published_recently : string -> res bool;
  co_expand_query : string -> list string;
  co_search_google : string -> option string -> World -> list job * World
}.
Arguments co_search_jobs {World} _.
Arguments co_GroqLLM {World} _.
Arguments co_SheetsWriter {World} _.
Arguments co_compose_docs {World} _.
Arguments co_path_exists {World} _.
Arguments co_remotive_get {World} _.
Arguments co_published_recently {World} _.
Arguments co_expand_query {World} _.
Arguments co_search_google {World} _.

(** The node an edge of the router leads to; [END] runs nothing. *)
Definition run_node {World : Type} (co : Collaborators World) (node : string)
    (state : JobAgentState) (w : World) : res delta :=
  if String.eqb node "job_search" then job_search_node (co_search_jobs co) state
  else if String.eqb node "customizer" then customizer_node (co_GroqLLM co) state
  else if String.eqb node "exporter" then Ok (exporter_node (co_SheetsWriter co) state)
  else if String.eqb node "chat" then Ok (chat_node (co_GroqLLM co) state)
  else if String.eqb node "more" then
    more_jobs_node (co_remotive_get co) (co_published_recently co)
      (co_expand_query co) (co_search_google co) state w
  else if String.eqb node "composer" then
    Ok (composer_node (co_compose_docs co) (co_path_exists co) state)
  else Ok [].

(** [job_agent.invoke(state)]: the router's dict is merged, the chosen
    handler runs on the merged state, and its dict is merged in turn. *)
Definition job_agent_invoke {World : Type} (co : Collaborators World)
    (state : JobAgentState) (w : World) : res JobAgentState :=
  let state := apply_delta state (router_node state) in
  d ← run_node co (route_action state) state w;
  Ok (apply_delta state d).

(** The text of the message a turn works on. *)
Definition last_text (state : JobAgentState) : option string :=
  message_text <$> last (messages state).

(** A character of a decimal numeral: a digit or the minus sign. *)
Definition numeral_char (c : ascii) : bool := is_digit c || Ascii.eqb c "-".

(** A character that is no whitespace, no slash and no capital. *)
Definition plain_char (c : ascii) : bool :=
  negb (is_space c) && negb (Ascii.eqb c "/") && Ascii.eqb (lower_char c) c.


(** What the fetch-more loops keep true of the jobs gathered so far and of
    the links seen, given the links of the jobs the session already holds. *)
Definition fresh_batch (old_links : gset (option string)) (gathered : list job)
    (seen_links : gset (option string)) : Prop :=
  NoDup (link_of <$> gathered)
  /\ seen_links = old_links ∪ list_to_set (link_of <$> gathered)
  /\ (forall j, j ∈ gathered -> link_of j ∉ old_links).

(** ** Sample sessions and collaborators *)

Module Samples.

Definition job_a : job :=
  list_to_map
    [("title", Some "Python Developer"); ("company", Some "Acme");
     ("location", Some "Remote"); ("salary", None);
     ("link", Some "https://jobs.example/a"); ("snippet", Some "Build things")].

Definition job_b : job :=
  list_to_map
    [("title", Some "Data Engineer"); ("company", Some "Globex");
     ("link", Some "https://jobs.example/b"); ("source", Some "LinkedIn (Google)")].

Definition fresh : JobAgentState := create_initial_state "42".

(** A session after a search that found [job_a], with a resume loaded. *)
Definition searched : JobAgentState :=
  {| telegram_user_id := "42";
     base_resume := Some "Ten years of Python.";
     search_query := Some "python developer";
     location := Some "remote";
     jobs_found := [job_a];
     selected_job_index := Some 0;
     selected_job := None;
     customized_resume := None;
     cover_letter := None;
     composed_pdf_path := None;
     sheets_exported := false;
     sheets_url := None;
     messages := [HumanMessage "/search python developer remote"];
     current_action := "search";
     response := "";
     error := None |}.



(** A Jooble call that times out. *)
Definition jooble_down : string -> option string -> SearchResult :=
  fun _ _ => mkSearchResult [] 0 (Some "Request failed: timed out").

(** A model that answers with empty text. *)
Definition silent_llm : res LLM :=
  Ok {| customize_resume := fun _ _ => Ok "";
        generate_cover_letter := fun _ _ _ => Ok "";
        chat := fun _ _ => Ok "" |}.

(** A model that answers. *)
Definition echo_llm : res LLM :=
  Ok {| customize_resume := fun resume _ => Ok ("Tailored: " ++ resume);
        generate_cover_letter := fun _ _ _ => Ok "Dear hiring manager,";
        chat := fun _ _ => Ok "Apply to the first one." |}.

(** What Remotive holds: one dated posting. *)
Definition remotive_posting : job :=
  list_to_map
    [("title", Some "Backend Engineer"); ("company_name", Some "Initech");
     ("url", Some "https://remotive.example/1");
     ("publication_date", Some "2024-05-01T09:00:00")].

Definition remotive_up : string -> nat -> http_reply :=
  fun _ _ => HttpReply 200 [remotive_posting].

Definition all_recent : string -> res bool := fun _ => Ok true.

Definition no_expansion : string -> list string := fun query => [query].

(** A Google search that finds [job_b] and, again, [job_a]. *)
Definition google_two : string -> option string -> unit -> list job * unit :=
  fun _ _ w => ([job_b; job_a], w).

(** A Google search that returns a job without a title. *)
Definition google_untitled : string -> option string -> unit -> list job * unit :=
  fun _ _ w => ([{[ "link" := Some "https://jobs.example/c" ]}], w).

(** A response of 9001 characters. *)
Definition long_response : string :=
  string_of_list_ascii
    (List.repeat "x"%char 4000 ++ List.repeat "y"%char 4000 ++
     List.repeat "z"%char 1001)%list.

End Samples.

(** ** Further notions used by the properties of the whole code *)

(** The actions the router can choose and the targets its edges lead to. *)
Definition ACTIONS : list string :=
  ["start"; "help"; "search"; "customize"; "export"; "chat"; "more"; "compose"].

Definition TARGETS : list string :=
  ["job_search"; "customizer"; "exporter"; "chat"; "more"; "composer"; END].

Definition delta_selected_job_index (d : delta) : option Z :=
  last (omap (fun u => match u with Set_selected_job_index i => Some i | _ => None end) d).

Definition delta_sheets_exported (d : delta) : option bool :=
  last (omap (fun u => match u with Set_sheets_exported b => Some b | _ => None end) d).

Definition delta_sheets_url (d : delta) : option string :=
  last (omap (fun u => match u with Set_sheets_url u => Some u | _ => None end) d).

(** ** [str.split(sep)] for a one-character separator *)

(** [s.split(sep)]: the pieces between the separators, empty ones
    included; the result is never empty. *)
Fixpoint split_on (sep : ascii) (s : string) : list string :=
  match s with
  | "" => [""]
  | String c s' =>
      if Ascii.eqb c sep then "" :: split_on sep s'
      else match split_on sep s' with
           | piece :: pieces => String c piece :: pieces
           | [] => [String c ""]
           end
  end.

(** The double quote character. *)
Definition DQ : string := String (ascii_of_nat 34) "".

(** ** The Google search adapter ([tools/google_search_api.py]) *)

Module GoogleSearchAPI.

(** What [requests.get] gives the adapter: a status code with the [items]
    array of the JSON body, or an exception. *)
Inductive reply : Type :=
| Reply (status_code : Z) (items : list job)
| Failure.

(** The search expression sent as [q]. *)
Definition query_of (keywords : string) (location : option string) : string :=
  "site:linkedin.com/jobs/view " ++ DQ ++ keywords ++ DQ ++ " " ++
  DQ ++ fmt location ++ DQ ++ " " ++ DQ ++ "1 day ago" ++ DQ.

(** The dict built for one item; a null [title] has no [split]. *)
Definition job_of_item (location : option string) (item : job) : res job :=
  match dict_get_or item "title" "Unknown Job" with
  | None => Raise (Exception "'NoneType' object has no attribute 'split'")
  | Some title_raw =>
      let title_parts := strip <$> split_on "|" title_raw in
      let title :=
        match title_parts with t :: _ => t | [] => "Unknown Job" end in
      let company :=
        match title_parts with _ :: c :: _ => c | _ => "Unknown Company" end in
      Ok (list_to_map
            [("title", Some title);
             ("company", Some company);
             ("location", location);
             ("salary", Some "Check listing");
             ("link", dict_get item "link");
             ("source", Some "LinkedIn (Google)");
             ("snippet", dict_get_or item "snippet" "")])
  end.

(** [for item in items: ... jobs.append({...})] *)
Fixpoint jobs_of_items (location : option string) (items : list job) : res (list job) :=
  match items with
  | [] => Ok []
  | item :: rest =>
      j ← job_of_item location item;
      jobs ← jobs_of_items location rest;
      Ok (j :: jobs)
  end.

Section Adapter.

Context {World : Type}.
(** [Config.GOOGLE_SEARCH_KEY] and [Config.GOOGLE_SEARCH_CX] *)
Variable api_key cx : string.
(** [requests.get(base_url, params={"q": query, ...})] *)
Variable get : string -> World -> reply * World.

Definition search_jobs (keywords : string) (location : option string) (w : World)
    : list job * World :=
  if String.eqb api_key "" || String.eqb cx "" then ([], w)
  else
    let '(r, w) := get (query_of keywords location) w in
    match r with
    | Reply status_code items =>
        if status_code =? 200
        then (try_except (jobs_of_items location items) (fun _ => []), w)
        else ([], w)
    | Failure => ([], w)
    end.

End Adapter.

End GoogleSearchAPI.

(** ** The query expander ([tools/llm_query_expander.py]) *)

Module LLMQueryExpander.

(** What [requests.post] gives the expander: a status code with the text
    found at [choices[0].message.content] (reading it may raise), or an
    exception. *)
Inductive reply : Type :=
| Reply (status_code : Z) (content : res string)
| Failure.

Definition nonempty (v : string) : bool :=
  match v with "" => false | _ => true end.

Section Expander.

(** [Config.OPENROUTER_API_KEY] *)
Variable api_key : string.
(** [requests.post(base_url, ...)] with the prompt built from the query *)
Variable post : string -> reply.

Definition expand_query (query : string) : list string :=
  if String.eqb api_key "" || String.eqb api_key "your_openrouter_key" then [query]
  else
    match post query with
    | Reply status_code content =>
        if status_code =? 200 then
          try_except
            (content ← content;
             let content := strip content in
             let variations := strip <$> split_on "," content in
             let variations := take 5 (List.filter nonempty variations) in
             Ok (if str_in query variations then variations
                 else query :: variations))
            (fun _ => [query])
        else [query]
    | Failure => [query]
    end.

End Expander.

End LLMQueryExpander.

(** ** The Jooble adapter ([tools/jooble_api.py]) *)

Module JoobleAPI.

(** What [requests.post] gives the adapter: a status code, the body text
    and the [jobs] array of the JSON body (reading it may raise), or an
    exception. *)
Inductive reply : Type :=
| Reply (status_code : Z) (text : string) (jobs : res (list job))
| Failure (e : exn).

Section Adapter.

(** [Config.DEFAULT_LOCATION] *)
Variable DEFAULT_LOCATION : string.
(** [requests.post(base_url, json={"keywords": ..., "location": ..., "page": 1})] *)
Variable post : string -> string -> reply.
(** Whether [(now - updated).days <= 3]; an unreadable date raises. *)
Variable updated_recently : string -> res bool.

(** The filter for recent jobs: a job without a date, or with a date that
    cannot be read, is kept. *)
Definition keep_job (j : job) : bool :=
  match dict_get j "updated" with
  | Some (String _ _ as updated_str) =>
      match updated_recently updated_str with
      | Ok recent => recent
      | Raise _ => true
      end
  | _ => true
  end.

Definition search_jobs (keywords : string) (location : option string) : SearchResult :=
  let location :=
    match location with
    | Some (String _ _ as l) => l
    | _ => DEFAULT_LOCATION
    end in
  match post keywords location with
  | Reply status_code text raw_jobs =>
      if status_code =? 200 then
        match raw_jobs with
        | Ok raw_jobs =>
            let recent_jobs := List.filter keep_job raw_jobs in
            mkSearchResult recent_jobs (Z.of_nat (length recent_jobs)) None
        | Raise e =>
            mkSearchResult [] 0 (Some ("Request failed: " ++ exn_str e))
        end
      else
        mkSearchResult [] 0
          (Some ("API error " ++ str status_code ++ ": " ++ text))
  | Failure e => mkSearchResult [] 0 (Some ("Request failed: " ++ exn_str e))
  end.

End Adapter.

End JoobleAPI.

(** ** Startup configuration ([config.py]) *)

Module Config.

(** The five values the bot cannot start without. *)
Record t : Type := mk {
  TELEGRAM_BOT_TOKEN : string;
  GROQ_API_KEY : string;
  JOOBLE_API_KEY : string;
  GOOGLE_SERVICE_ACCOUNT_FILE : string;
  GOOGLE_SHEET_URL : string
}.

(** [if not value: missing.append(name)] *)
Definition missing_if_empty (value name : string) : list string :=
  match value with "" => [name] | _ => [] end.

Definition validate (cls : t) : list string :=
  (missing_if_empty (TELEGRAM_BOT_TOKEN cls) "TELEGRAM_BOT_TOKEN" ++
   missing_if_empty (GROQ_API_KEY cls) "GROQ_API_KEY" ++
   missing_if_empty (JOOBLE_API_KEY cls) "JOOBLE_API_KEY" ++
   missing_if_empty (GOOGLE_SERVICE_ACCOUNT_FILE cls) "GOOGLE_SERVICE_ACCOUNT_FILE" ++
   missing_if_empty (GOOGLE_SHEET_URL cls) "GOOGLE_SHEET_URL")%list.

End Config.

(** [create_bot]'s check ([bot/telegram_handler.py]): a missing value stops
    the start with a [ValueError] that lists the missing names. *)
Definition create_bot_check (config : Config.t) : res unit :=
  match Config.validate config with
  | [] => Ok tt
  | missing => Raise (Exception ("Missing required config: " ++ join ", " missing))
  end.

(** ** Long words in the PDF text ([tools/pdf_composer.py]) *)

Module PDFComposer.

(** [[word[i:i+max_chars] for i in range(0, len(word), max_chars)]] *)
Definition word_parts (max_chars : nat) (word : string) : list string :=
  (fun i => slice i max_chars word) <$> py_range 0 (String.length word) max_chars.

(** One word of the text: cut when longer than [max_chars].  [range] with
    a zero step raises. *)
Definition wrap_word (max_chars : nat) (word : string) : res string :=
  if (max_chars <? String.length word)%nat then
    match max_chars with
    | O => Raise (Exception "range() arg 3 must not be zero")
    | _ => Ok (join " " (word_parts max_chars word))
    end
  else Ok word.

Fixpoint wrap_words (max_chars : nat) (words : list string) : res (list string) :=
  match words with
  | [] => Ok []
  | word :: rest =>
      wrapped ← wrap_word max_chars word;
      wrapped_words ← wrap_words max_chars rest;
      Ok (wrapped :: wrapped_words)
  end.

Definition wrap_long_lines (text : string) (max_chars : nat) : res string :=
  let words := split_on " " text in
  wrapped_words ← wrap_words max_chars words;
  Ok (join " " wrapped_words).

End PDFComposer.

(** A job the fetch-more listing can print: the three keys it reads with
    [job[...]] are there. *)
Definition listable (j : job) : Prop :=
  is_Some (j !! "title") /\ is_Some (j !! "company") /\ is_Some (j !! "link").

(** A history entry the fetch-more fallback passes over: no [/search]
    command, or one without a token. *)
Definition no_search (m : message) : Prop :=
  startswith (message_text m) "/search" = false
  \/ search_parts (message_text m) = [].

(** Settle a fact about one character by trying all 256 of them. *)
Ltac all_ascii c :=
  destruct c as [[] [] [] [] [] [] [] []]; vm_compute; try reflexivity; try discriminate.

(** * Properties *)

(** ** Reading a list at a checked position *)

Lemma py_getitem_in_range {A : Type} (l : list A) (i : Z) :
  0 <= i < Z.of_nat (length l) ->
  exists a, l !! Z.to_nat i = Some a /\ py_getitem l i = Ok a.
Proof.
  intros [Hlo Hhi]. unfold py_getitem.
  destruct (Z.ltb_spec i 0) as [?|_]; [lia|].
  destruct (Z.ltb_spec i 0) as [?|_]; [lia|].
  destruct (Z.leb_spec (Z.of_nat (length l)) i) as [?|_]; [lia|]. simpl.
  destruct (l !! Z.to_nat i) as [a|] eqn:Hl.
  - exists a. split; reflexivity.
  - apply lookup_ge_None in Hl. lia.
Qed.

(** ** Compose *)

Lemma composer_refuses_falsy compose_docs path_exists (s : JobAgentState) :
  truthy (customized_resume s) = false \/ truthy (cover_letter s) = false ->
  composer_node compose_docs path_exists s =
  [Set_response
     "❌ No customized resume or cover letter found. Please use /customize first.";
   Set_error (Some "Missing documents for composition")].
Proof.
  intros H. unfold composer_node.
  destruct H as [-> | ->]; simpl; [reflexivity|].
  rewrite orb_true_r. reflexivity.
Qed.

(** C6: when [customized_resume] or [cover_letter] is absent the compose
    handler answers with the "use /customize first" error, the dict it
    returns has no [composed_pdf_path], and the session's path is left as it
    was. *)
Theorem composer_requires_documents compose_docs path_exists (s : JobAgentState) :
  customized_resume s = None \/ cover_letter s = None ->
  let d := composer_node compose_docs path_exists s in
  d = [Set_response
         "❌ No customized resume or cover letter found. Please use /customize first.";
       Set_error (Some "Missing documents for composition")]
  /\ delta_composed_pdf_path d = None
  /\ composed_pdf_path (apply_delta s d) = composed_pdf_path s.
Proof.
  intros H d.
  assert (Hd : d = [Set_response
         "❌ No customized resume or cover letter found. Please use /customize first.";
       Set_error (Some "Missing documents for composition")]).
  { apply composer_refuses_falsy. destruct H as [-> | ->]; auto. }
  rewrite Hd. repeat split. destruct s; reflexivity.
Qed.

Lemma composer_requires_documents_witness :
  (customized_resume Samples.searched = None \/ cover_letter Samples.searched = None)
  /\ delta_composed_pdf_path
       (composer_node (fun _ => Ok "out/application.pdf") (fun _ => true)
          Samples.searched) = None.
Proof.
  split; [left; reflexivity|].
  exact (proj1 (proj2 (composer_requires_documents
                         (fun _ => Ok "out/application.pdf") (fun _ => true)
                         Samples.searched (or_introl eq_refl)))).
Defined.

(** ** Search *)







(** ** Customize *)

(** Every run of the customize handler ends in one of two shapes: an error
    dict with [response] and [error] only, or the five entries of a
    generation that succeeded for the job at the selected position. *)
Lemma customizer_node_cases GroqLLM (s : JobAgentState) :
  (exists msg err,
      customizer_node GroqLLM s = Ok [Set_response msg; Set_error (Some err)])
  \/ (exists i resume j llm cr cl,
        selected_job_index s = Some i
        /\ 0 <= i < Z.of_nat (length (jobs_found s))
        /\ jobs_found s !! Z.to_nat i = Some j
        /\ base_resume s = Some resume /\ resume <> ""
        /\ GroqLLM = Ok llm
        /\ customize_resume llm resume (job_description j) = Ok cr
        /\ generate_cover_letter llm resume (job_description j)
             (dict_get_or j "company" "the company") = Ok cl
        /\ customizer_node GroqLLM s
           = Ok [Set_selected_job j; Set_customized_resume cr; Set_cover_letter cl;
                 Set_response (documents_response j cr cl); Set_error None]).
Proof.
  unfold customizer_node.
  destruct (selected_job_index s) as [i|] eqn:Hi; [|left; eauto].
  destruct (jobs_found s) as [|j0 js] eqn:Hjobs; [left; eauto|].
  destruct (Z.ltb_spec i 0) as [Hneg|Hlo]; [left; simpl; eauto|].
  destruct (Z.leb_spec (Z.of_nat (length (j0 :: js))) i) as [Hbig|Hhi];
    [left; simpl; eauto|]. simpl orb. cbv iota.
  destruct (base_resume s) as [[|c resume]|] eqn:Hres; [left; eauto| |left; eauto].
  destruct (py_getitem_in_range (j0 :: js) i) as (j & Hj & ->); [lia|].
  simpl mbind. unfold generate_documents.
  destruct GroqLLM as [llm|e] eqn:HL; [|left; simpl; eauto].
  simpl.
  destruct (customize_resume llm (String c resume) (job_description j))
    as [cr|e] eqn:Hcr; [|left; simpl; eauto].
  simpl.
  destruct (generate_cover_letter llm (String c resume) (job_description j)
              (dict_get_or j "company" "the company")) as [cl|e] eqn:Hcl;
    [|left; simpl; eauto].
  right. exists i, (String c resume), j, llm, cr, cl.
  repeat split; auto; try lia; discriminate.
Qed.




(** The claim of C8 fails when the model answers with empty text: the
    handler reports success ([error] is [None]) and stores two empty
    documents. *)
Lemma customizer_accepts_empty_documents :
  match customizer_node Samples.silent_llm Samples.searched with
  | Ok d =>
      delta_error d = Some None
      /\ delta_customized_resume d = Some ""
      /\ delta_cover_letter d = Some ""
  | Raise _ => False
  end.
Proof. vm_compute. repeat split. Qed.

(** C8 (amended): the customize handler sets [customized_resume] and
    [cover_letter] together or not at all.  After a successful run (the dict
    has [error = None]) both are set, in the same dict, to the texts the
    two generation calls returned for the selected job; they are non-empty
    whenever those texts are. *)
Theorem customizer_documents_paired GroqLLM (s : JobAgentState) (d : delta) :
  customizer_node GroqLLM s = Ok d ->
  (delta_customized_resume d = None <-> delta_cover_letter d = None)
  /\ (delta_error d = Some None ->
      exists llm resume j cr cl,
        GroqLLM = Ok llm
        /\ base_resume s = Some resume
        /\ j ∈ jobs_found s
        /\ customize_resume llm resume (job_description j) = Ok cr
        /\ generate_cover_letter llm resume (job_description j)
             (dict_get_or j "company" "the company") = Ok cl
        /\ delta_customized_resume d = Some cr
        /\ delta_cover_letter d = Some cl
        /\ customized_resume (apply_delta s d) = Some cr
        /\ cover_letter (apply_delta s d) = Some cl
        /\ (cr <> "" -> cl <> "" ->
            truthy (customized_resume (apply_delta s d)) = true
            /\ truthy (cover_letter (apply_delta s d)) = true)).
Proof.
  intros Hd.
  destruct (customizer_node_cases GroqLLM s)
    as [(msg & err & H) | (i & resume & j & llm & cr & cl & Hi & Hr & Hj & Hres & Hne
                            & HL & Hcr & Hcl & H)];
    rewrite H in Hd; injection Hd as <-.
  - split; [split; reflexivity|]. discriminate.
  - split; [split; discriminate|]. intros _.
    exists llm, resume, j, cr, cl.
    assert (Hs : customized_resume
                   (apply_delta s [Set_selected_job j; Set_customized_resume cr;
                                   Set_cover_letter cl;
                                   Set_response (documents_response j cr cl);
                                   Set_error None]) = Some cr
                 /\ cover_letter
                   (apply_delta s [Set_selected_job j; Set_customized_resume cr;
                                   Set_cover_letter cl;
                                   Set_response (documents_response j cr cl);
                                   Set_error None]) = Some cl).
    { destruct s; split; reflexivity. }
    destruct Hs as [Hs1 Hs2].
    repeat split; auto.
    + apply list_elem_of_lookup. eauto.
    + rewrite Hs1. destruct cr; [congruence|reflexivity].
    + rewrite Hs2. destruct cl; [congruence|reflexivity].
Qed.

Lemma customizer_documents_paired_witness :
  let d := [Set_selected_job Samples.job_a;
            Set_customized_resume "Tailored: Ten years of Python.";
            Set_cover_letter "Dear hiring manager,";
            Set_response
              (documents_response Samples.job_a "Tailored: Ten years of Python."
                 "Dear hiring manager,");
            Set_error None] in
  customizer_node Samples.echo_llm Samples.searched = Ok d
  /\ (delta_customized_resume d = None <-> delta_cover_letter d = None).
Proof.
  intros d.
  assert (H : customizer_node Samples.echo_llm Samples.searched = Ok d)
    by reflexivity.
  split; [exact H|].
  exact (proj1 (customizer_documents_paired Samples.echo_llm Samples.searched d H)).
Defined.

(** ** Fetch more: the caps *)

Section MoreJobsFacts.

Local Open Scope list_scope.
Local Arguments Nat.leb : simpl never.

Context {World : Type}.
Variable remotive_get : string -> nat -> http_reply.
Variable published_recently : string -> res bool.
Variable expand_query : string -> list string.
Variable search_google : string -> option string -> World -> list job * World.

Lemma remotive_recent_length (limit : nat) (jobs recent : list job) :
  (length recent < limit)%nat ->
  (length (remotive_recent published_recently limit jobs recent) <= limit)%nat.
Proof.
  revert recent. induction jobs as [|j jobs IH]; intros recent Hlt; simpl; [lia|].
  set (recent' := match dict_get j "publication_date" with
                  | Some (String _ _ as p) =>
                      match published_recently p with
                      | Ok false => recent
                      | _ => (recent ++ [remotive_entry j p])%list
                      end
                  | _ => recent
                  end).
  assert (Hlen : (length recent' <= S (length recent))%nat).
  { subst recent'. destruct (dict_get j "publication_date") as [[|c p]|]; try lia.
    destruct (published_recently (String c p)) as [[|]|e];
      rewrite ?length_app; simpl; lia. }
  destruct (Nat.leb_spec limit (length recent')); [lia|].
  apply IH. lia.
Qed.

Lemma search_remotive_length (keywords : string) :
  (length (search_remotive remotive_get published_recently keywords 10) <= 10)%nat.
Proof.
  unfold search_remotive.
  destruct (remotive_get keywords 10) as [status jobs|]; simpl; [|lia].
  destruct (status =? 200); simpl; [|lia].
  apply remotive_recent_length. simpl. lia.
Qed.

Lemma add_unseen_length (jobs acc : list job) (seen : gset (option string)) :
  (length (add_unseen jobs acc seen).1 <= length acc + length jobs)%nat.
Proof.
  revert acc seen. induction jobs as [|j jobs IH]; intros acc seen; simpl; [lia|].
  destruct (decide (link_of j ∈ seen)).
  - specialize (IH acc seen). lia.
  - specialize (IH (acc ++ [j]) ({[link_of j]} ∪ seen)).
    rewrite length_app in IH. simpl in IH. lia.
Qed.

(** The inner loop stops appending at 20. *)
Lemma add_unseen_capped_length (jobs acc : list job) (seen : gset (option string)) :
  (length acc < 20)%nat ->
  (length (add_unseen_capped jobs acc seen).1 <= 20)%nat.
Proof.
  revert acc seen. induction jobs as [|j jobs IH]; intros acc seen Hlt; simpl; [lia|].
  destruct (decide (link_of j ∈ seen)); [apply IH; exact Hlt|].
  destruct (Nat.leb_spec 20 (length (acc ++ [j]))) as [Hge|Hlt'].
  - cbn [fst]. rewrite length_app in *. cbn [length] in *. lia.
  - apply IH. exact Hlt'.
Qed.

(** The outer loop makes no search once 15 jobs are held: jobs, links and
    the outside world come back as they went in. *)
Lemma search_variations_stops (variations : list string) (location : option string)
    (acc : list job) (seen : gset (option string)) (w : World) :
  (15 <= length acc)%nat ->
  search_variations search_google variations location acc seen w = (acc, seen, w).
Proof.
  intros Hge. destruct variations as [|var rest]; simpl; [reflexivity|].
  destruct (Nat.leb_spec 15 (length acc)); [reflexivity|lia].
Qed.

Lemma search_variations_length (variations : list string) (location : option string)
    (acc : list job) (seen : gset (option string)) (w : World) :
  (length acc <= 20)%nat ->
  (length (search_variations search_google variations location acc seen w).1.1 <= 20)%nat.
Proof.
  revert acc seen w.
  induction variations as [|var rest IH]; intros acc seen w Hle; simpl; [exact Hle|].
  destruct (Nat.leb_spec 15 (length acc)) as [Hge|Hlt]; [exact Hle|].
  destruct (search_google var location w) as [google_jobs w'].
  pose proof (add_unseen_capped_length google_jobs acc seen) as Hcap.
  destruct (add_unseen_capped google_jobs acc seen) as [acc' seen'].
  apply IH. apply Hcap. lia.
Qed.

Lemma collect_extra_jobs_length (s : JobAgentState) (query : string)
    (variations : list string) (w : World) :
  (length (collect_extra_jobs remotive_get published_recently search_google
             s query variations w).1 <= 20)%nat.
Proof.
  unfold collect_extra_jobs.
  pose proof (add_unseen_length
                (search_remotive remotive_get published_recently query 10) []
                (list_to_set (link_of <$> jobs_found s))) as Hrem.
  pose proof (search_remotive_length query) as H10.
  destruct (add_unseen _ [] _) as [acc seen]. simpl in Hrem.
  pose proof (search_variations_length variations (location s) acc seen w) as Hvar.
  destruct (search_variations _ _ _ _ _ _) as [[acc' seen'] w']. simpl in *.
  apply Hvar. lia.
Qed.

(** What the handler returns: an error or "nothing new" dict without
    [jobs_found], or the old list followed by the gathered jobs. *)
Lemma more_jobs_node_cases (s : JobAgentState) (w : World) (d : delta) :
  more_jobs_node remotive_get published_recently expand_query search_google s w = Ok d ->
  (exists msg err, d = [Set_response msg; Set_error err])
  \/ (exists query msg,
        d = [Set_jobs_found
               (jobs_found s ++
                (collect_extra_jobs remotive_get published_recently search_google
                   s query (expand_query query) w).1);
             Set_response msg; Set_error None]).
Proof.
  unfold more_jobs_node.
  set (q := if truthy (search_query s) then search_query s
            else match recover_query (rev (messages s)) with
                 | Some q => Some q
                 | None => search_query s
                 end).
  destruct q as [[|c query]|]; intros H;
    [injection H as <-; left; eauto| |injection H as <-; left; eauto].
  destruct (collect_extra_jobs _ _ _ s (String c query) _ w) as [extra w'] eqn:Hc.
  destruct extra as [|j extra]; [injection H as <-; left; eauto|].
  destruct (format_extra_jobs (j :: extra) _ _) as [full|e]; [|discriminate].
  injection H as <-. right. exists (String c query). rewrite Hc. eauto.
Qed.

(** ** Fetch more: no link twice *)

Lemma fresh_batch_start (old_links : gset (option string)) :
  fresh_batch old_links [] old_links.
Proof.
  split; [constructor|]. split; [|intros j Hj; inversion Hj].
  simpl. symmetry. apply (right_id_L ∅ (∪)).
Qed.

Lemma fresh_batch_snoc (old_links : gset (option string)) (acc : list job)
    (seen : gset (option string)) (j : job) :
  fresh_batch old_links acc seen ->
  link_of j ∉ seen ->
  fresh_batch old_links (acc ++ [j]) ({[link_of j]} ∪ seen).
Proof.
  intros (Hnd & Hseen & Hold) Hnew. subst seen. repeat split.
  - rewrite fmap_app. apply NoDup_app. split; [exact Hnd|]. split.
    + intros x Hx Hx'. apply list_elem_of_singleton in Hx'. subst x.
      apply Hnew, elem_of_union_r, elem_of_list_to_set, Hx.
    + apply NoDup_singleton.
  - rewrite fmap_app, list_to_set_app_L. simpl.
    rewrite (right_id_L ∅ (∪)), (comm_L (∪) {[link_of j]}), (assoc_L (∪)).
    reflexivity.
  - intros j' Hj'. apply elem_of_app in Hj' as [Hj'|Hj'].
    + apply Hold. exact Hj'.
    + apply list_elem_of_singleton in Hj'. subst j'.
      intros Hin. apply Hnew, elem_of_union_l, Hin.
Qed.

Lemma add_unseen_fresh (old_links : gset (option string)) (jobs acc : list job)
    (seen : gset (option string)) :
  fresh_batch old_links acc seen ->
  fresh_batch old_links (add_unseen jobs acc seen).1 (add_unseen jobs acc seen).2.
Proof.
  revert acc seen. induction jobs as [|j jobs IH]; intros acc seen Hinv; simpl;
    [exact Hinv|].
  destruct (decide (link_of j ∈ seen)); [apply IH; exact Hinv|].
  apply IH. apply fresh_batch_snoc; assumption.
Qed.

Lemma add_unseen_capped_fresh (old_links : gset (option string))
    (jobs acc : list job) (seen : gset (option string)) :
  fresh_batch old_links acc seen ->
  fresh_batch old_links (add_unseen_capped jobs acc seen).1
    (add_unseen_capped jobs acc seen).2.
Proof.
  revert acc seen. induction jobs as [|j jobs IH]; intros acc seen Hinv; simpl;
    [exact Hinv|].
  destruct (decide (link_of j ∈ seen)); [apply IH; exact Hinv|].
  destruct (20 <=? length (acc ++ [j]))%nat.
  - apply fresh_batch_snoc; assumption.
  - apply IH. apply fresh_batch_snoc; assumption.
Qed.

Lemma search_variations_fresh (old_links : gset (option string))
    (variations : list string) (location : option string) (acc : list job)
    (seen : gset (option string)) (w : World) :
  fresh_batch old_links acc seen ->
  fresh_batch old_links
    (search_variations search_google variations location acc seen w).1.1
    (search_variations search_google variations location acc seen w).1.2.
Proof.
  revert acc seen w.
  induction variations as [|var rest IH]; intros acc seen w Hinv; simpl;
    [exact Hinv|].
  destruct (15 <=? length acc)%nat; [exact Hinv|].
  destruct (search_google var location w) as [google_jobs w'].
  pose proof (add_unseen_capped_fresh old_links google_jobs acc seen Hinv) as Hcap.
  destruct (add_unseen_capped google_jobs acc seen) as [acc' seen'].
  apply IH. exact Hcap.
Qed.

Lemma collect_extra_jobs_fresh (s : JobAgentState) (query : string)
    (variations : list string) (w : World) :
  let extra := (collect_extra_jobs remotive_get published_recently search_google
                  s query variations w).1 in
  NoDup (link_of <$> extra)
  /\ (forall j, j ∈ extra -> link_of j ∉ link_of <$> jobs_found s).
Proof.
  unfold collect_extra_jobs.
  pose proof (add_unseen_fresh (list_to_set (link_of <$> jobs_found s))
                (search_remotive remotive_get published_recently query 10) [] _
                (fresh_batch_start _)) as Hrem.
  destruct (add_unseen _ [] _) as [acc seen].
  pose proof (search_variations_fresh _ variations (location s) acc seen w Hrem)
    as Hvar.
  destruct (search_variations _ _ _ _ _ _) as [[acc' seen'] w']. simpl in *.
  destruct Hvar as (Hnd & _ & Hold). split; [exact Hnd|].
  intros j Hj Hin. apply (Hold j Hj). apply elem_of_list_to_set. exact Hin.
Qed.

Lemma jobs_found_after_error (s : JobAgentState) (msg : string) (err : option string) :
  jobs_found (apply_delta s [Set_response msg; Set_error err]) = jobs_found s.
Proof. destruct s; reflexivity. Qed.

Lemma jobs_found_after_append (s : JobAgentState) (js : list job) (msg : string) :
  jobs_found (apply_delta s [Set_jobs_found js; Set_response msg; Set_error None]) = js.
Proof. destruct s; reflexivity. Qed.

(** C4: one fetch-more turn gathers at most 20 jobs.  The loop over the
    query variations makes no further search once 15 jobs are held, the
    loop over one search's results stops appending once 20 are held, and
    so [jobs_found] grows by at most 20 in the turn. *)
Theorem fetch_more_caps (s : JobAgentState) (w : World) :
  (forall query variations,
      (length (collect_extra_jobs remotive_get published_recently search_google
                 s query variations w).1 <= 20)%nat)
  /\ (forall variations location acc seen w',
        (15 <= length acc)%nat ->
        search_variations search_google variations location acc seen w'
        = (acc, seen, w'))
  /\ (forall google_jobs acc seen,
        (length acc < 20)%nat ->
        (length (add_unseen_capped google_jobs acc seen).1 <= 20)%nat)
  /\ (forall d,
        more_jobs_node remotive_get published_recently expand_query search_google s w
        = Ok d ->
        (length (jobs_found (apply_delta s d)) <= length (jobs_found s) + 20)%nat).
Proof.
  split; [intros; apply collect_extra_jobs_length|].
  split; [intros; apply search_variations_stops; assumption|].
  split; [intros; apply add_unseen_capped_length; assumption|].
  intros d Hd.
  destruct (more_jobs_node_cases s w d Hd) as [(msg & err & ->)|(query & msg & ->)].
  - rewrite jobs_found_after_error. lia.
  - rewrite jobs_found_after_append, length_app.
    pose proof (collect_extra_jobs_length s query (expand_query query) w). lia.
Qed.

(** C5: the jobs a fetch-more turn gathers have pairwise different links,
    none of them the link of a job the session already holds; the handler
    puts them after the old list, whose entries keep their positions. *)
Theorem fetch_more_no_duplicate_links (s : JobAgentState) (w : World) :
  (forall query variations,
      let extra := (collect_extra_jobs remotive_get published_recently search_google
                      s query variations w).1 in
      NoDup (link_of <$> extra)
      /\ (forall j, j ∈ extra -> link_of j ∉ link_of <$> jobs_found s))
  /\ (forall d,
        more_jobs_node remotive_get published_recently expand_query search_google s w
        = Ok d ->
        exists extra,
          jobs_found (apply_delta s d) = jobs_found s ++ extra
          /\ (delta_jobs_found d = None /\ extra = []
              \/ delta_jobs_found d = Some (jobs_found s ++ extra))
          /\ NoDup (link_of <$> extra)
          /\ (forall j, j ∈ extra -> link_of j ∉ link_of <$> jobs_found s)
          /\ (forall k, (k < length (jobs_found s))%nat ->
                jobs_found (apply_delta s d) !! k = jobs_found s !! k)).
Proof.
  split; [intros; apply collect_extra_jobs_fresh|].
  intros d Hd.
  destruct (more_jobs_node_cases s w d Hd) as [(msg & err & ->)|(query & msg & ->)].
  - exists []. rewrite jobs_found_after_error, app_nil_r.
    split; [reflexivity|]. split; [left; split; reflexivity|].
    split; [constructor|]. split; [intros j Hj; inversion Hj|]. reflexivity.
  - destruct (collect_extra_jobs_fresh s query (expand_query query) w) as [Hnd Hold].
    eexists. rewrite jobs_found_after_append.
    split; [reflexivity|]. split; [right; reflexivity|].
    split; [exact Hnd|]. split; [exact Hold|].
    intros k Hk. apply lookup_app_l. exact Hk.
Qed.

End MoreJobsFacts.

Lemma fetch_more_caps_witness :
  (length
     (collect_extra_jobs Samples.remotive_up Samples.all_recent Samples.google_two
        Samples.searched "python developer" ["python developer"] tt).1 <= 20)%nat.
Proof.
  exact (proj1 (fetch_more_caps Samples.remotive_up Samples.all_recent
                  Samples.no_expansion Samples.google_two Samples.searched tt)
           "python developer" ["python developer"]).
Defined.

Lemma fetch_more_no_duplicate_links_witness :
  NoDup
    (link_of <$>
       (collect_extra_jobs Samples.remotive_up Samples.all_recent Samples.google_two
          Samples.searched "python developer" ["python developer"] tt).1).
Proof.
  exact (proj1 (proj1 (fetch_more_no_duplicate_links Samples.remotive_up
                         Samples.all_recent Samples.no_expansion Samples.google_two
                         Samples.searched tt)
                  "python developer" ["python developer"])).
Defined.

Example fetch_more_sample :
  (collect_extra_jobs Samples.remotive_up Samples.all_recent Samples.google_two
     Samples.searched "python developer" ["python developer"] tt).1
  = [remotive_entry Samples.remotive_posting "2024-05-01T09:00:00"; Samples.job_b].
Proof. vm_compute. reflexivity. Qed.

(** ** Delivery in chunks *)

Section Slices.

Local Arguments Nat.ltb : simpl never.
Local Arguments Nat.leb : simpl never.

Lemma append_empty_r (s : string) : s ++ "" = s.
Proof.
  induction s as [|c s IH]; [reflexivity|].
  change (String c (s ++ "") = String c s). rewrite IH. reflexivity.
Qed.









Variable step : nat.
Hypothesis step_pos : (0 < step)%nat.



End Slices.



Example reply_chunks_sizes :
  String.length <$> reply_chunks Samples.long_response = [4000; 4000; 1001]%nat.
Proof. vm_compute. reflexivity. Qed.

(** ** Facts about the string operations *)

Lemma append_cons (c : ascii) (x y : string) : String c x ++ y = String c (x ++ y).
Proof. reflexivity. Qed.

Lemma append_assoc (x y z : string) : (x ++ y) ++ z = x ++ (y ++ z).
Proof.
  induction x as [|c x IH]; [reflexivity|].
  rewrite !append_cons, IH. reflexivity.
Qed.

(** *** Characters *)








Lemma numeral_char_plain (c : ascii) : numeral_char c = true -> plain_char c = true.
Proof. all_ascii c. Qed.

Lemma all_chars_impl (p q : ascii -> bool) (s : string) :
  (forall c, p c = true -> q c = true) ->
  all_chars p s = true -> all_chars q s = true.
Proof.
  intros Hpq. induction s as [|c s IH]; simpl; [reflexivity|].
  intros [Hc Hs]%andb_prop. rewrite (Hpq c Hc), (IH Hs). reflexivity.
Qed.


(** *** [lower] *)

Lemma lower_app (x y : string) : lower (x ++ y) = lower x ++ lower y.
Proof.
  induction x as [|c x IH]; [reflexivity|].
  rewrite append_cons. simpl. rewrite IH. reflexivity.
Qed.

Lemma lower_plain (s : string) : all_chars plain_char s = true -> lower s = s.
Proof.
  induction s as [|c s IH]; simpl; [reflexivity|].
  intros [Hc Hs]%andb_prop. rewrite (IH Hs).
  unfold plain_char in Hc. apply andb_prop in Hc as [_ Hc].
  apply Ascii.eqb_eq in Hc. rewrite Hc. reflexivity.
Qed.



(** *** [strip] *)

Lemma lstrip_cons (c : ascii) (s : string) :
  is_space c = false -> lstrip (String c s) = String c s.
Proof. intros H. simpl. rewrite H. reflexivity. Qed.


Lemma rstrip_cons (c : ascii) (s : string) :
  is_space c = false -> rstrip (String c s) = String c (rstrip s).
Proof. intros H. simpl. rewrite H. destruct (rstrip s); reflexivity. Qed.

Lemma rstrip_plain (s : string) :
  all_chars (fun c => negb (is_space c)) s = true -> rstrip s = s.
Proof.
  induction s as [|c s IH]; [reflexivity|].
  simpl all_chars. intros [Hc Hs]%andb_prop. apply negb_true_iff in Hc.
  rewrite (rstrip_cons _ _ Hc), (IH Hs). reflexivity.
Qed.

Lemma rstrip_app_plain (x d : string) :
  d <> "" -> all_chars (fun c => negb (is_space c)) d = true ->
  rstrip (x ++ d) = x ++ d.
Proof.
  intros Hne Hd. induction x as [|c x IH]; [apply rstrip_plain; exact Hd|].
  rewrite append_cons. simpl. rewrite IH.
  destruct (x ++ d) eqn:Hxd; [|reflexivity].
  destruct x; [change (d = "") in Hxd; congruence|].
  rewrite append_cons in Hxd. discriminate.
Qed.





(** *** [startswith] *)

Lemma prefix_cons_inv (a : ascii) (p x : string) :
  String.prefix (String a p) x = true ->
  exists x', x = String a x' /\ String.prefix p x' = true.
Proof.
  destruct x as [|b x']; simpl; [discriminate|].
  destruct (ascii_dec a b) as [<-|]; [eauto|discriminate].
Qed.

Lemma prefix_slash_other (c : ascii) (p r : string) :
  Ascii.eqb c "/" = false -> String.prefix (String "/" p) (String c r) = false.
Proof.
  intros Hc.
  change (match ascii_dec "/" c with
          | left _ => String.prefix p r
          | right _ => false
          end = false).
  destruct (ascii_dec "/" c) as [<-|]; [discriminate|reflexivity].
Qed.

(** *** [replace] and [split] *)

Lemma replace_from_no_slash (o new s : string) :
  all_chars (fun c => negb (Ascii.eqb c "/")) s = true ->
  replace_from (String "/" o) new 0 s = s.
Proof.
  induction s as [|c s IH]; [reflexivity|].
  simpl all_chars. intros [Hc Hs]%andb_prop. apply negb_true_iff in Hc.
  cbn [replace_from]. rewrite (prefix_slash_other _ _ _ Hc), (IH Hs). reflexivity.
Qed.

Lemma split_from_plain (cur s : string) :
  all_chars (fun c => negb (is_space c)) s = true ->
  cur ++ s <> "" ->
  split_from cur s = [cur ++ s].
Proof.
  revert cur. induction s as [|c s IH]; intros cur Hs Hne.
  - rewrite append_empty_r in *. simpl. destruct cur; [congruence|reflexivity].
  - simpl in Hs. apply andb_prop in Hs as [Hc Hs]. apply negb_true_iff in Hc.
    simpl. rewrite Hc, IH.
    + rewrite append_assoc. reflexivity.
    + exact Hs.
    + rewrite append_assoc. exact Hne.
Qed.

(** *** [int] and [str] *)






Lemma int_digits_digit (b : bool) (acc : N) (c : ascii) (s : string) (d : N) :
  digit_of c = Some d ->
  int_digits b acc (String c s) = int_digits true (10 * acc + d)%N s.
Proof. intros H. simpl. rewrite H. reflexivity. Qed.

Lemma int_digits_uint_acc (d : Decimal.uint) (acc : positive) :
  int_digits true (N.pos acc) (NilEmpty.string_of_uint d)
  = Some (N.pos (Pos.of_uint_acc d acc)).
Proof.
  revert acc.
  induction d as [|d IH|d IH|d IH|d IH|d IH|d IH|d IH|d IH|d IH|d IH]; intros acc;
    cbn [NilEmpty.string_of_uint Pos.of_uint_acc]; [reflexivity|..];
    (erewrite int_digits_digit by (vm_compute; reflexivity));
    match goal with
    | |- int_digits true ?v _ = Some (N.pos (Pos.of_uint_acc _ ?acc')) =>
        replace v with (N.pos acc') by lia
    end;
    apply IH.
Qed.

Lemma int_digits_uint (b : bool) (d : Decimal.uint) :
  d <> Decimal.Nil ->
  int_digits b 0 (NilEmpty.string_of_uint d) = Some (Pos.of_uint d).
Proof.
  revert b.
  induction d as [|d IH|d IH|d IH|d IH|d IH|d IH|d IH|d IH|d IH|d IH]; intros b Hne;
    [congruence|..];
    cbn [NilEmpty.string_of_uint Pos.of_uint];
    erewrite int_digits_digit by (vm_compute; reflexivity).
  - destruct d; [reflexivity|..]; apply IH; discriminate.
  - apply (int_digits_uint_acc d 1).
  - apply (int_digits_uint_acc d 2).
  - apply (int_digits_uint_acc d 3).
  - apply (int_digits_uint_acc d 4).
  - apply (int_digits_uint_acc d 5).
  - apply (int_digits_uint_acc d 6).
  - apply (int_digits_uint_acc d 7).
  - apply (int_digits_uint_acc d 8).
  - apply (int_digits_uint_acc d 9).
Qed.

Lemma string_of_uint_digits (d : Decimal.uint) :
  all_chars is_digit (NilEmpty.string_of_uint d) = true.
Proof. induction d; simpl; [reflexivity|..]; exact IHd. Qed.

Lemma string_of_uint_nonempty (d : Decimal.uint) :
  d <> Decimal.Nil -> NilEmpty.string_of_uint d <> "".
Proof. destruct d; [congruence|..]; discriminate. Qed.

Lemma digit_not_sign (c : ascii) :
  is_digit c = true -> Ascii.eqb c "-" = false /\ Ascii.eqb c "+" = false.
Proof. all_ascii c; intros _; split; reflexivity. Qed.

(** [str] prints a numeral: digits, after a minus sign for a negative
    number. *)
Lemma str_numeral (n : Z) : all_chars numeral_char (str n) = true /\ str n <> "".
Proof.
  assert (Hd : forall d, all_chars numeral_char (NilEmpty.string_of_uint d) = true).
  { intros d. apply (all_chars_impl is_digit); [|apply string_of_uint_digits].
    intros c Hc. unfold numeral_char. rewrite Hc. reflexivity. }
  destruct n as [|p|p]; unfold str; simpl.
  - split; [reflexivity|discriminate].
  - split; [apply Hd|].
    apply string_of_uint_nonempty, DecimalPos.Unsigned.to_uint_nonnil.
  - split; [apply Hd|discriminate].
Qed.

Lemma int_signed_str (n : Z) : int_signed (str n) = Some n.
Proof.
  destruct n as [|p|p]; unfold str; simpl Z.to_int; cbn [NilEmpty.string_of_int].
  - reflexivity.
  - pose proof (int_digits_uint false (Pos.to_uint p)
                  (DecimalPos.Unsigned.to_uint_nonnil p)) as Hv.
    pose proof (string_of_uint_digits (Pos.to_uint p)) as Hdig.
    destruct (NilEmpty.string_of_uint (Pos.to_uint p)) as [|c r] eqn:Hs.
    { discriminate Hv. }
    simpl in Hdig. apply andb_prop in Hdig as [Hc _].
    destruct (digit_not_sign c Hc) as [Hm Hp].
    unfold int_signed. rewrite Hm, Hp, Hv.
    rewrite DecimalPos.Unsigned.of_to. reflexivity.
  - unfold int_signed. rewrite Ascii.eqb_refl.
    rewrite (int_digits_uint false (Pos.to_uint p)
               (DecimalPos.Unsigned.to_uint_nonnil p)).
    rewrite DecimalPos.Unsigned.of_to. reflexivity.
Qed.

Lemma lstrip_no_space (s : string) :
  all_chars (fun c => negb (is_space c)) s = true -> lstrip s = s.
Proof.
  destruct s as [|c s]; [reflexivity|]. simpl all_chars.
  intros [Hc _]%andb_prop. apply negb_true_iff in Hc. apply lstrip_cons, Hc.
Qed.

Lemma strip_no_space (s : string) :
  all_chars (fun c => negb (is_space c)) s = true -> strip s = s.
Proof. intros H. unfold strip. rewrite (lstrip_no_space s H). apply rstrip_plain, H. Qed.

Lemma plain_no_space (s : string) :
  all_chars plain_char s = true -> all_chars (fun c => negb (is_space c)) s = true.
Proof.
  apply all_chars_impl. intros c. unfold plain_char.
  intros [[H _]%andb_prop _]%andb_prop. exact H.
Qed.

Lemma plain_no_slash (s : string) :
  all_chars plain_char s = true ->
  all_chars (fun c => negb (Ascii.eqb c "/")) s = true.
Proof.
  apply all_chars_impl. intros c. unfold plain_char.
  intros [[_ H]%andb_prop _]%andb_prop. exact H.
Qed.

Lemma str_plain (n : Z) : all_chars plain_char (str n) = true.
Proof.
  apply (all_chars_impl numeral_char); [apply numeral_char_plain|apply str_numeral].
Qed.

(** [int(str(n))] is [n]. *)
Lemma int_str (n : Z) : int (str n) = Some n.
Proof.
  unfold int. rewrite strip_no_space; [apply int_signed_str|].
  apply plain_no_space, str_plain.
Qed.

(** ** The router on numbers *)

Lemma last_text_inv (s : JobAgentState) (t : string) :
  last_text s = Some t ->
  exists m, last (messages s) = Some m /\ message_text m = t.
Proof.
  unfold last_text. destruct (last (messages s)) as [m|]; simpl; [|discriminate].
  intros [= <-]. eauto.
Qed.



Lemma customize_text (d : string) :
  all_chars plain_char d = true -> d <> "" ->
  lower (strip ("/customize " ++ d)) = "/customize " ++ d.
Proof.
  intros Hd Hne. unfold strip.
  change (lstrip ("/customize " ++ d)) with ("/customize " ++ d).
  rewrite (rstrip_app_plain _ d Hne (plain_no_space d Hd)).
  rewrite lower_app, (lower_plain d Hd). reflexivity.
Qed.

Lemma customize_parts_numeral (d : string) :
  all_chars plain_char d = true -> d <> "" ->
  customize_parts ("/customize " ++ d) = [d].
Proof.
  intros Hd Hne. unfold customize_parts.
  change (replace ("/customize " ++ d) "/customize" "")
    with (String " " (replace_from "/customize" "" 0 d)).
  rewrite (replace_from_no_slash _ _ d (plain_no_slash d Hd)).
  unfold strip. change (lstrip (String " " d)) with (lstrip d).
  fold (strip d). rewrite (strip_no_space d (plain_no_space d Hd)).
  unfold split. rewrite (split_from_plain "" d (plain_no_space d Hd)); [reflexivity|].
  exact Hne.
Qed.

Lemma router_customize_number (s : JobAgentState) (n : Z) :
  last_text s = Some ("/customize " ++ str n) ->
  router_node s = [Set_current_action "customize"; Set_selected_job_index (n - 1)].
Proof.
  intros (m & Hm & Ht)%last_text_inv.
  destruct (str_numeral n) as [_ Hne]. pose proof (str_plain n) as Hplain.
  unfold router_node. rewrite Hm, Ht. cbv zeta.
  rewrite (customize_text _ Hplain Hne).
  change (startswith ("/customize " ++ str n) "/start") with false.
  change (startswith ("/customize " ++ str n) "/help") with false.
  change (startswith ("/customize " ++ str n) "/search") with false.
  change (startswith ("/customize " ++ str n) "/customize") with true.
  cbv iota.
  rewrite (customize_parts_numeral _ Hplain Hne), int_str. reflexivity.
Qed.






(** ** The router on [/search] *)

Section Tokens.

Variable p : ascii -> bool.






End Tokens.



Lemma str_in_spec (x : string) (l : list string) : str_in x l = true <-> x ∈ l.
Proof.
  unfold str_in. rewrite existsb_exists, list_elem_of_In. split.
  - intros (y & Hy & ->%String.eqb_eq). exact Hy.
  - intros Hx. exists x. split; [exact Hx|apply String.eqb_refl].
Qed.


(** *** Tokens typed after [/search] are the tokens the router reads *)


Lemma join_cons_cons (sep t t' : string) (ts : list string) :
  join sep (t :: t' :: ts) = t ++ sep ++ join sep (t' :: ts).
Proof. reflexivity. Qed.











(** * Further properties of the code *)

(** ** The router's choices *)

(** X1: whatever the session holds, the router picks exactly one action of
    the closed set.  It writes a [response] itself exactly when the action
    is [help] or [start], and for exactly those actions the dispatch ends
    the turn; for every other action the dispatch names a handler. *)
Theorem router_action_closed (s : JobAgentState) :
  exists a rest,
    router_node s = Set_current_action a :: rest
    /\ a ∈ ACTIONS
    /\ current_action (apply_delta s (router_node s)) = a
    /\ route_action (apply_delta s (router_node s)) ∈ TARGETS
    /\ (route_action (apply_delta s (router_node s)) = END
        <-> a = "help" \/ a = "start")
    /\ (is_Some (delta_response (router_node s)) <-> a = "help" \/ a = "start").
Proof.
  assert (Hgo : forall a rest,
            existsb (String.eqb a) ACTIONS = true ->
            existsb (String.eqb
                       (route_action (apply_delta (create_initial_state "")
                                        [Set_current_action a])))
              TARGETS = true ->
            Forall (fun u => forall a', u <> Set_current_action a') rest ->
            (String.eqb (route_action (apply_delta (create_initial_state "")
                                         [Set_current_action a])) END
             = (String.eqb a "help" || String.eqb a "start")) ->
            (match delta_response (Set_current_action a :: rest) with
             | Some _ => true | None => false end
             = (String.eqb a "help" || String.eqb a "start")) ->
            exists a0 rest0,
              Set_current_action a :: rest = Set_current_action a0 :: rest0
              /\ a0 ∈ ACTIONS
              /\ current_action (apply_delta s (Set_current_action a :: rest)) = a0
              /\ route_action (apply_delta s (Set_current_action a :: rest)) ∈ TARGETS
              /\ (route_action (apply_delta s (Set_current_action a :: rest)) = END
                  <-> a0 = "help" \/ a0 = "start")
              /\ (is_Some (delta_response (Set_current_action a :: rest))
                  <-> a0 = "help" \/ a0 = "start")).
  { intros a rest Ha Ht Hrest Hend Hresp.
    assert (Hcur : current_action (apply_delta s (Set_current_action a :: rest)) = a).
    { clear -Hrest. unfold apply_delta. simpl.
      assert (H : forall s0, current_action s0 = a ->
                  current_action (fold_left apply_update rest s0) = a).
      { induction Hrest as [|u rest Hu _ IH]; intros s0 Hs0; [exact Hs0|].
        simpl. apply IH. destruct s0, u; simpl in *; try assumption.
        exfalso. eapply Hu. reflexivity. }
      apply H. destruct s; reflexivity. }
    assert (Hroute : route_action (apply_delta s (Set_current_action a :: rest))
                     = route_action (apply_delta (create_initial_state "")
                                       [Set_current_action a])).
    { unfold route_action. rewrite Hcur. reflexivity. }
    exists a, rest. split; [reflexivity|]. split; [apply str_in_spec, Ha|].
    split; [exact Hcur|]. rewrite Hroute.
    split; [apply str_in_spec, Ht|]. split.
    - rewrite <- String.eqb_eq, Hend, orb_true_iff, !String.eqb_eq. reflexivity.
    - rewrite <- !String.eqb_eq, <- orb_true_iff, <- Hresp.
      destruct (delta_response (Set_current_action a :: rest)); split; intros H;
        [reflexivity|eauto|destruct H; discriminate|discriminate]. }
  unfold router_node.
  repeat match goal with
         | |- context [match ?x with _ => _ end] =>
             match x with
             | context [match _ with _ => _ end] => fail 1
             | _ => destruct x
             end
         end;
    apply Hgo; try reflexivity; repeat constructor; discriminate.
Qed.

Lemma prefix_three (c1 c2 c3 : ascii) (p x : string) :
  String.prefix (String c1 (String c2 (String c3 p))) x = true ->
  exists x', x = String c1 (String c2 (String c3 x')).
Proof.
  intros (x1 & -> & (x2 & -> & (x3 & -> & _)%prefix_cons_inv)%prefix_cons_inv)%prefix_cons_inv.
  eauto.
Qed.

(** X2: the commands without arguments are recognised by prefix alone.  A
    message whose trimmed, lower-cased text starts with [/start], [/help],
    [/export], [/resume], [/chat], [/more] or [/compose] gets that command's
    intent whatever follows the command word; no command is shadowed by an
    earlier test of the router. *)
Theorem router_prefix_commands (s : JobAgentState) (t : string) :
  last_text s = Some t ->
  let text := lower (strip t) in
  (startswith text "/start" = true ->
     router_node s = [Set_current_action "start"; Set_response START_MESSAGE])
  /\ (startswith text "/help" = true ->
        router_node s = [Set_current_action "help"; Set_response HELP_MESSAGE])
  /\ (startswith text "/export" = true ->
        router_node s = [Set_current_action "export"])
  /\ (startswith text "/resume" = true ->
        router_node s = [Set_current_action "help"; Set_response RESUME_PROMPT])
  /\ (startswith text "/chat" = true -> router_node s = [Set_current_action "chat"])
  /\ (startswith text "/more" = true -> router_node s = [Set_current_action "more"])
  /\ (startswith text "/compose" = true ->
        router_node s = [Set_current_action "compose"]).
Proof.
  intros (m & Hm & <-)%last_text_inv text. subst text.
  unfold startswith.
  repeat split; intros H;
    destruct (prefix_three _ _ _ _ _ H) as [x' Hx];
    unfold router_node, startswith; rewrite Hm; cbv zeta;
    rewrite Hx in *; rewrite H; reflexivity.
Qed.

Lemma router_prefix_commands_witness :
  last_text (with_message Samples.searched "/Export everything, please")
    = Some "/Export everything, please"
  /\ startswith (lower (strip "/Export everything, please")) "/export" = true
  /\ router_node (with_message Samples.searched "/Export everything, please")
     = [Set_current_action "export"].
Proof.
  split; [reflexivity|]. split; [reflexivity|].
  exact (proj1 (proj2 (proj2 (router_prefix_commands
                  (with_message Samples.searched "/Export everything, please")
                  "/Export everything, please" eq_refl))) eq_refl).
Defined.

(** X3: a [/customize] command changes the selection only when its first
    token reads as an integer.  Without a token the router answers with the
    usage text, with a first token that is no integer it answers with the
    "valid job number" text, and in both cases the merged session keeps the
    selected position it had.  With an integer first token the tokens after
    it are ignored. *)
Theorem router_customize_argument (s : JobAgentState) (t : string) :
  last_text s = Some t ->
  startswith (lower (strip t)) "/customize" = true ->
  let parts := customize_parts (lower (strip t)) in
  (parts = [] ->
     router_node s = [Set_current_action "help"; Set_response CUSTOMIZE_USAGE]
     /\ selected_job_index (apply_delta s (router_node s)) = selected_job_index s)
  /\ (forall part0 others, parts = part0 :: others -> int part0 = None ->
        router_node s = [Set_current_action "help"; Set_response CUSTOMIZE_INVALID]
        /\ selected_job_index (apply_delta s (router_node s)) = selected_job_index s)
  /\ (forall part0 others n, parts = part0 :: others -> int part0 = Some n ->
        router_node s
        = [Set_current_action "customize"; Set_selected_job_index (n - 1)]
        /\ selected_job_index (apply_delta s (router_node s)) = Some (n - 1)).
Proof.
  intros (m & Hm & <-)%last_text_inv Hc parts.
  assert (Hrouter : router_node s
    = match parts with
      | [] => [Set_current_action "help"; Set_response CUSTOMIZE_USAGE]
      | part0 :: _ =>
          match int part0 with
          | Some n => [Set_current_action "customize"; Set_selected_job_index (n - 1)]
          | None => [Set_current_action "help"; Set_response CUSTOMIZE_INVALID]
          end
      end).
  { unfold startswith in Hc. destruct (prefix_three _ _ _ _ _ Hc) as [x' Hx].
    unfold router_node, startswith. rewrite Hm. cbv zeta.
    subst parts. revert Hc. rewrite Hx. intros Hc. rewrite Hc. reflexivity. }
  rewrite Hrouter. split; [|split].
  - intros ->. split; [reflexivity|]. destruct s; reflexivity.
  - intros part0 others -> ->. split; [reflexivity|]. destruct s; reflexivity.
  - intros part0 others n -> ->. split; [reflexivity|]. destruct s; reflexivity.
Qed.

Lemma router_customize_argument_witness :
  last_text (with_message Samples.searched "/customize two") = Some "/customize two"
  /\ startswith (lower (strip "/customize two")) "/customize" = true
  /\ router_node (with_message Samples.searched "/customize two")
     = [Set_current_action "help"; Set_response CUSTOMIZE_INVALID].
Proof.
  split; [reflexivity|]. split; [reflexivity|].
  exact (proj1 (proj1 (proj2 (router_customize_argument
                  (with_message Samples.searched "/customize two")
                  "/customize two" eq_refl eq_refl))
                  "two" [] eq_refl eq_refl)).
Defined.

(** ** The search handler *)

Lemma format_job_outcome (j : job) (i : Z) :
  (j !! "snippet" = Some None /\ format_job j i = Raise TypeError)
  \/ (j !! "snippet" <> Some None /\ exists line, format_job j i = Ok line).
Proof.
  unfold format_job, dict_get_or.
  destruct (j !! "snippet") as [[t|]|]; simpl.
  - right. split; [discriminate|eauto].
  - left. split; reflexivity.
  - right. split; [discriminate|eauto].
Qed.

Lemma format_jobs_outcome (jobs : list job) (i : Z) (acc : string) :
  (Exists (fun j => j !! "snippet" = Some None) jobs
   /\ format_jobs jobs i acc = Raise TypeError)
  \/ (Forall (fun j => j !! "snippet" <> Some None) jobs
      /\ exists out, format_jobs jobs i acc = Ok out).
Proof.
  revert i acc. induction jobs as [|j jobs IH]; intros i acc.
  - right. split; [constructor|]. simpl. eauto.
  - simpl. destruct (format_job_outcome j i) as [[Hj ->]|[Hj [line ->]]].
    + left. split; [constructor; exact Hj|reflexivity].
    + simpl. destruct (IH (i + 1) (acc ++ line ++ LF)) as [[He ->]|[Hf [out ->]]].
      * left. split; [apply Exists_cons_tl; exact He|reflexivity].
      * right. split; [constructor; assumption|eauto].
Qed.

(** X4: a search replaces the list of jobs and never stores more than ten.
    When the handler's dict carries [jobs_found], the list is empty after a
    failed request and otherwise the first ten jobs the service returned, in
    the service's order; after the merge the session holds exactly that
    list. *)
Theorem search_keeps_first_ten search_jobs (s : JobAgentState) (d : delta)
    (js : list job) :
  job_search_node search_jobs s = Ok d ->
  delta_jobs_found d = Some js ->
  (length js <= 10)%nat
  /\ jobs_found (apply_delta s d) = js
  /\ exists query,
       search_query s = Some query /\ query <> ""
       /\ let result := search_jobs query (location s) in
          (is_Some (result_error result) /\ js = [])
          \/ (result_error result = None /\ js = take 10 (result_jobs result)).
Proof.
  unfold job_search_node.
  destruct (search_query s) as [[|c q]|] eqn:Hq; [intros [= <-]; discriminate| |
    intros [= <-]; discriminate].
  destruct (result_error (search_jobs (String c q) (location s))) as [err|] eqn:He.
  { intros [= <-] [= <-]. split; [simpl; lia|]. split; [destruct s; reflexivity|].
    exists (String c q). repeat split; try discriminate.
    left. rewrite He. split; [eauto|reflexivity]. }
  destruct (result_jobs (search_jobs (String c q) (location s))) as [|j0 jobs] eqn:Hj.
  { intros [= <-] [= <-]. split; [simpl; lia|]. split; [destruct s; reflexivity|].
    exists (String c q). repeat split; try discriminate.
    right. rewrite He, Hj. split; reflexivity. }
  destruct (format_jobs (take 10 (j0 :: jobs)) 1 _) as [out|e]; [|discriminate].
  intros [= <-] Hjs. change (Some (take 10 (j0 :: jobs)) = Some js) in Hjs.
  injection Hjs as <-.
  split; [cbn [length]; rewrite length_take; lia|].
  split; [destruct s; reflexivity|].
  exists (String c q). repeat split; try discriminate.
  right. rewrite He, Hj. split; reflexivity.
Qed.

Lemma search_keeps_first_ten_witness :
  let twelve := List.repeat Samples.job_a 12 in
  exists d,
    job_search_node (fun _ _ => mkSearchResult twelve 12 None) Samples.searched = Ok d
    /\ delta_jobs_found d = Some (take 10 twelve)
    /\ (length (take 10 twelve) <= 10)%nat.
Proof.
  intros twelve.
  destruct (job_search_node (fun _ _ => mkSearchResult twelve 12 None) Samples.searched)
    as [d|e] eqn:H; [|vm_compute in H; discriminate H].
  assert (Hd : delta_jobs_found d = Some (take 10 twelve))
    by (vm_compute in H; injection H as <-; reflexivity).
  exists d. split; [reflexivity|]. split; [exact Hd|].
  exact (proj1 (search_keeps_first_ten _ _ _ _ H Hd)).
Defined.

(** X5: the search handler raises in exactly one situation: the request
    succeeded and one of the first ten jobs carries a null [snippet], which
    the listing tries to slice.  A job without the key is listed with an
    empty snippet, and a null snippet beyond the tenth job does no harm. *)
Theorem search_raises_on_null_snippet search_jobs (s : JobAgentState) (e : exn) :
  job_search_node search_jobs s = Raise e
  <-> e = TypeError
      /\ exists query,
           search_query s = Some query /\ query <> ""
           /\ result_error (search_jobs query (location s)) = None
           /\ Exists (fun j => j !! "snippet" = Some None)
                (take 10 (result_jobs (search_jobs query (location s)))).
Proof.
  unfold job_search_node. split.
  - destruct (search_query s) as [[|c q]|] eqn:Hq; try discriminate.
    destruct (result_error (search_jobs (String c q) (location s))) eqn:He;
      [discriminate|].
    destruct (result_jobs (search_jobs (String c q) (location s))) as [|j0 jobs] eqn:Hj;
      [discriminate|].
    match goal with
    | |- context [format_jobs ?l ?i ?a] =>
        destruct (format_jobs_outcome l i a) as [[Hex ->]|[_ [out ->]]]
    end; [|discriminate].
    intros [= <-]. split; [reflexivity|].
    exists (String c q).
    split; [reflexivity|]. split; [discriminate|]. split; [exact He|].
    rewrite Hj. exact Hex.
  - intros (-> & query & Hq & Hne & He & Hex). rewrite Hq.
    destruct query as [|c q]; [congruence|]. rewrite He.
    destruct (result_jobs (search_jobs (String c q) (location s))) as [|j0 jobs] eqn:Hj.
    { inversion Hex. }
    cbv zeta.
    match goal with
    | |- context [format_jobs ?l ?i ?a] =>
        destruct (format_jobs_outcome l i a) as [[_ ->]|[Hall _]]
    end; [reflexivity|].
    exfalso. apply Exists_exists in Hex as (j & Hin & Hnull).
    rewrite Forall_forall in Hall. exact (Hall j Hin Hnull).
Qed.

(** ** Compose and export *)

(** X6: the compose handler reports a path only for a file that is there.
    Its dict carries [composed_pdf_path = p] exactly when both documents are
    present, [compose_docs] returned [p] and [p] exists on disk; in every
    other case the dict has no path and names an error. *)
Theorem composer_path_is_real compose_docs path_exists (s : JobAgentState) (p : string) :
  let d := composer_node compose_docs path_exists s in
  (delta_composed_pdf_path d = Some p
   <-> truthy (customized_resume s) = true /\ truthy (cover_letter s) = true
       /\ compose_docs s = Ok p /\ path_exists p = true)
  /\ (delta_composed_pdf_path d = None -> exists err, delta_error d = Some (Some err)).
Proof.
  unfold composer_node, compose_pdf.
  destruct (truthy (customized_resume s)); simpl;
    [|split; [split; [discriminate|intros (H & _); discriminate]|eauto]].
  destruct (truthy (cover_letter s)); simpl;
    [|split; [split; [discriminate|intros (_ & H & _); discriminate]|eauto]].
  destruct (compose_docs s) as [q|e]; simpl;
    [|split; [split; [discriminate|intros (_ & _ & H & _); discriminate]|eauto]].
  destruct (path_exists q) eqn:Hq; simpl.
  - split; [|discriminate]. split.
    + intros [= <-]. auto.
    + intros (_ & _ & [= <-] & _). reflexivity.
  - split; [|eauto]. split; [discriminate|].
    intros (_ & _ & [= <-] & H). congruence.
Qed.

(** X7: the export handler marks the session as exported only after a
    write that counted at least one job: its dict carries
    [sheets_exported = True] exactly when there are jobs, the writer came up
    without an error and with a client, [add_jobs_batch] returned a positive
    count and the sheet URL was read; then [sheets_url] is that URL.  The
    handler never writes [sheets_exported = False], and without jobs it
    answers before a writer is built. *)
Theorem exporter_marks_after_write SheetsWriter (s : JobAgentState) :
  let d := exporter_node SheetsWriter s in
  (delta_sheets_exported d = Some true
   <-> exists writer count url,
         jobs_found s <> []
         /\ SheetsWriter = Ok writer
         /\ truthy (writer_error writer) = false
         /\ writer_client writer = true
         /\ add_jobs_batch writer (jobs_found s) = Ok count /\ 0 < count
         /\ get_sheet_url writer = Ok url
         /\ delta_sheets_url d = Some url)
  /\ delta_sheets_exported d <> Some false
  /\ (delta_sheets_exported d = None -> delta_sheets_url d = None)
  /\ (jobs_found s = [] ->
      d = [Set_response "❌ No jobs to export. Use /search first to find jobs.";
           Set_error (Some "No jobs to export")]).
Proof.
  unfold exporter_node, export_jobs.
  destruct (jobs_found s) as [|j js] eqn:Hjobs.
  { simpl. split; [|split; [discriminate|split; [reflexivity|reflexivity]]].
    split; [discriminate|]. intros (w & c & u & H & _). congruence. }
  destruct SheetsWriter as [writer|e]; simpl.
  2:{ split; [|split; [discriminate|split; [reflexivity|discriminate]]].
      split; [discriminate|]. intros (w & c & u & _ & H & _). discriminate. }
  destruct (truthy (writer_error writer)) eqn:Herr; simpl.
  { split; [|split; [discriminate|split; [reflexivity|discriminate]]].
    split; [discriminate|].
    intros (w & c & u & _ & [= <-] & H & _). congruence. }
  destruct (writer_client writer) eqn:Hclient; simpl.
  2:{ split; [|split; [discriminate|split; [reflexivity|discriminate]]].
      split; [discriminate|].
      intros (w & c & u & _ & [= <-] & _ & H & _). congruence. }
  destruct (add_jobs_batch writer (j :: js)) as [count|e] eqn:Hcount; simpl.
  2:{ split; [|split; [discriminate|split; [reflexivity|discriminate]]].
      split; [discriminate|].
      intros (w & c & u & _ & [= <-] & _ & _ & H & _). congruence. }
  destruct (get_sheet_url writer) as [url|e] eqn:Hurl; simpl.
  2:{ split; [|split; [discriminate|split; [reflexivity|discriminate]]].
      split; [discriminate|].
      intros (w & c & u & _ & [= <-] & _ & _ & _ & _ & H & _). congruence. }
  destruct (Z.ltb_spec 0 count) as [Hpos|Hle]; simpl.
  - split; [|split; [discriminate|split; [discriminate|discriminate]]].
    split; [|reflexivity]. intros _. exists writer, count, url.
    repeat split; auto; discriminate.
  - split; [|split; [discriminate|split; [reflexivity|discriminate]]].
    split; [discriminate|].
    intros (w & c & u & _ & [= <-] & _ & _ & Hc & Hp & _).
    rewrite Hcount in Hc. injection Hc as <-. lia.
Qed.

(** ** One whole turn *)

Lemma customizer_success GroqLLM (s : JobAgentState) (i : Z) (j : job)
    (resume : string) (llm : LLM) (cr cl : string) :
  selected_job_index s = Some i ->
  0 <= i ->
  jobs_found s !! Z.to_nat i = Some j ->
  base_resume s = Some resume -> resume <> "" ->
  GroqLLM = Ok llm ->
  customize_resume llm resume (job_description j) = Ok cr ->
  generate_cover_letter llm resume (job_description j)
    (dict_get_or j "company" "the company") = Ok cl ->
  customizer_node GroqLLM s
  = Ok [Set_selected_job j; Set_customized_resume cr; Set_cover_letter cl;
        Set_response (documents_response j cr cl); Set_error None].
Proof.
  intros Hi Hlo Hj Hres Hne HL Hcr Hcl.
  pose proof (lookup_lt_Some _ _ _ Hj) as Hlt.
  unfold customizer_node. rewrite Hi, Hres.
  destruct (jobs_found s) as [|j0 js] eqn:Hjobs; [simpl in Hlt; lia|].
  destruct (Z.ltb_spec i 0) as [?|_]; [lia|].
  destruct (Z.leb_spec (Z.of_nat (length (j0 :: js))) i) as [?|_]; [lia|].
  simpl orb. cbv iota. destruct resume as [|c r]; [congruence|].
  destruct (py_getitem_in_range (j0 :: js) i) as (j' & Hj' & ->); [lia|].
  rewrite Hj in Hj'. injection Hj' as <-.
  simpl mbind. unfold generate_documents. rewrite HL. simpl.
  rewrite Hcr. simpl. rewrite Hcl. reflexivity.
Qed.

(** X8: [/customize n] works on the [n]-th job of the list, counted from 1.
    When the list has an [n]-th job, a resume is loaded and the model
    answers both calls, the turn ends with that job selected, position
    [n - 1] stored, both documents set to the model's answers, no error, and
    the list of jobs as it was. *)
Theorem customize_turn_selects_nth {World : Type} (co : Collaborators World)
    (s : JobAgentState) (w : World) (n : Z) (j : job) (resume : string)
    (llm : LLM) (cr cl : string) :
  last_text s = Some ("/customize " ++ str n) ->
  1 <= n ->
  jobs_found s !! Z.to_nat (n - 1) = Some j ->
  base_resume s = Some resume -> resume <> "" ->
  co_GroqLLM co = Ok llm ->
  customize_resume llm resume (job_description j) = Ok cr ->
  generate_cover_letter llm resume (job_description j)
    (dict_get_or j "company" "the company") = Ok cl ->
  exists s',
    job_agent_invoke co s w = Ok s'
    /\ selected_job s' = Some j
    /\ selected_job_index s' = Some (n - 1)
    /\ customized_resume s' = Some cr
    /\ cover_letter s' = Some cl
    /\ error s' = None
    /\ response s' = documents_response j cr cl
    /\ jobs_found s' = jobs_found s.
Proof.
  intros Ht Hn Hj Hres Hne HL Hcr Hcl.
  unfold job_agent_invoke. rewrite (router_customize_number s n Ht). cbv zeta.
  set (s1 := apply_delta s [Set_current_action "customize";
                            Set_selected_job_index (n - 1)]).
  assert (Hroute : route_action s1 = "customizer") by (destruct s; reflexivity).
  assert (H1 : selected_job_index s1 = Some (n - 1) /\ jobs_found s1 = jobs_found s
               /\ base_resume s1 = base_resume s)
    by (destruct s; repeat split; reflexivity).
  destruct H1 as (Hi1 & Hj1 & Hr1).
  rewrite Hroute. unfold run_node. simpl String.eqb. cbv iota.
  rewrite (customizer_success (co_GroqLLM co) s1 (n - 1) j resume llm cr cl);
    try assumption; try lia; try congruence.
  simpl mbind. eexists. split; [reflexivity|].
  destruct s; repeat split; reflexivity.
Qed.

Lemma customize_turn_selects_nth_witness :
  exists s',
    job_agent_invoke
      (mkCollaborators unit Samples.jooble_down Samples.echo_llm
         (Raise (Exception "no sheet")) (fun _ => Raise (Exception "no pdf"))
         (fun _ => false) Samples.remotive_up Samples.all_recent
         Samples.no_expansion Samples.google_two)
      (with_message Samples.searched "/customize 1") tt = Ok s'
    /\ selected_job s' = Some Samples.job_a.
Proof.
  destruct (customize_turn_selects_nth
              (mkCollaborators unit Samples.jooble_down Samples.echo_llm
                 (Raise (Exception "no sheet")) (fun _ => Raise (Exception "no pdf"))
                 (fun _ => false) Samples.remotive_up Samples.all_recent
                 Samples.no_expansion Samples.google_two)
              (with_message Samples.searched "/customize 1") tt 1 Samples.job_a
              "Ten years of Python."
              {| customize_resume := fun resume _ => Ok ("Tailored: " ++ resume);
                 generate_cover_letter := fun _ _ _ => Ok "Dear hiring manager,";
                 chat := fun _ _ => Ok "Apply to the first one." |}
              ("Tailored: " ++ "Ten years of Python.") "Dear hiring manager,"
              eq_refl ltac:(lia) eq_refl eq_refl ltac:(discriminate)
              eq_refl eq_refl eq_refl) as (s' & Hs' & Hsel & _).
  exists s'. split; assumption.
Defined.

(** ** Fetch more: the query and the jobs it lists *)

Lemma split_from_nonempty (cur s : string) :
  Forall (fun tok => tok <> "") (split_from cur s).
Proof.
  revert cur. induction s as [|c s IH]; intros cur; simpl.
  - destruct cur; constructor; [discriminate|constructor].
  - destruct (is_space c); [|apply IH].
    destruct cur; [apply IH|]. constructor; [discriminate|apply IH].
Qed.

Lemma join_head_nonempty (sep t : string) (ts : list string) :
  t <> "" -> join sep (t :: ts) <> "".
Proof.
  intros Hne. destruct t as [|c r]; [congruence|].
  destruct ts; [discriminate|]. rewrite join_cons_cons, append_cons. discriminate.
Qed.

(** X9: the fallback of fetch-more takes its query from the first entry of
    the reversed history (the latest message) that is a [/search] command
    with at least one token.  The query is never empty: it is the single
    token, or all tokens but the last joined by blanks.  The fallback finds
    nothing exactly when no entry is such a command. *)
Theorem recover_query_latest (msgs : list message) :
  match recover_query msgs with
  | None => Forall no_search msgs
  | Some query =>
      query <> ""
      /\ exists skipped m rest part0 others,
           msgs = (skipped ++ m :: rest)%list
           /\ Forall no_search skipped
           /\ startswith (message_text m) "/search" = true
           /\ search_parts (message_text m) = part0 :: others
           /\ query = match others with
                      | [] => part0
                      | _ => join " " (removelast (part0 :: others))
                      end
  end.
Proof.
  induction msgs as [|m msgs IH]; simpl; [constructor|].
  destruct (startswith (message_text m) "/search") eqn:Hs.
  - change (split (strip (replace (message_text m) "/search" "")))
      with (search_parts (message_text m)).
    pose proof (split_from_nonempty "" (strip (replace (message_text m) "/search" "")))
      as Hne.
    change (split_from "" (strip (replace (message_text m) "/search" "")))
      with (search_parts (message_text m)) in Hne.
    destruct (search_parts (message_text m)) as [|part0 others] eqn:Hp.
    + destruct (recover_query msgs) as [q|].
      * destruct IH as (Hq & skipped & m' & rest & p0 & os & -> & Hsk & Hm & Hp' & ->).
        split; [exact Hq|].
        exists (m :: skipped), m', rest, p0, os.
        repeat split; auto. constructor; [right; exact Hp|exact Hsk].
      * constructor; [right; exact Hp|exact IH].
    + pose proof (Forall_inv Hne) as Hp0. simpl in Hp0. split.
      * destruct others as [|p1 others]; [exact Hp0|].
        change (1 <? length (part0 :: p1 :: others))%nat with true. cbv iota.
        change (removelast (part0 :: p1 :: others))
          with (part0 :: removelast (p1 :: others)).
        apply join_head_nonempty, Hp0.
      * exists [], m, msgs, part0, others.
        repeat split; auto. destruct others; reflexivity.
  - destruct (recover_query msgs) as [q|].
    + destruct IH as (Hq & skipped & m' & rest & p0 & os & -> & Hsk & Hm & Hp' & ->).
      split; [exact Hq|].
      exists (m :: skipped), m', rest, p0, os.
      repeat split; auto. constructor; [left; exact Hs|exact Hsk].
    + constructor; [left; exact Hs|exact IH].
Qed.

Section MoreJobsQuery.

Context {World : Type}.
Variable remotive_get : string -> nat -> http_reply.
Variable published_recently : string -> res bool.
Variable expand_query : string -> list string.
Variable search_google : string -> option string -> World -> list job * World.

(** X10: fetch-more asks for a search first exactly when it has no query:
    the session's [search_query] is missing or empty and the history holds
    no [/search] command with a token.  The answer then is the same
    whatever the collaborators would return. *)
Theorem more_jobs_needs_query (s : JobAgentState) (w : World) :
  more_jobs_node remotive_get published_recently expand_query search_google s w
  = Ok [Set_response "❌ No previous search found. Please use /search first.";
        Set_error (Some "No query found for more jobs")]
  <-> truthy (search_query s) = false /\ recover_query (rev (messages s)) = None.
Proof.
  unfold more_jobs_node.
  pose proof (recover_query_latest (rev (messages s))) as Hrec.
  destruct (truthy (search_query s)) eqn:Htruthy.
  - destruct (search_query s) as [[|c q]|]; try discriminate.
    destruct (collect_extra_jobs _ _ _ s (String c q) _ w) as [extra w'].
    destruct extra as [|j extra].
    + split; [discriminate|intros [? _]; discriminate].
    + destruct (format_extra_jobs (j :: extra) _ _); simpl;
        (split; [discriminate|intros [? _]; discriminate]).
  - destruct (recover_query (rev (messages s))) as [q|].
    + destruct Hrec as [Hq _]. destruct q as [|c q]; [congruence|].
      destruct (collect_extra_jobs _ _ _ s (String c q) _ w) as [extra w'].
      destruct extra as [|j extra].
      * split; [discriminate|intros [_ ?]; discriminate].
      * destruct (format_extra_jobs (j :: extra) _ _); simpl;
          (split; [discriminate|intros [_ ?]; discriminate]).
    + destruct (search_query s) as [[|c q]|]; try discriminate;
        (split; [auto|reflexivity]).
Qed.

End MoreJobsQuery.

(** ** The job boards behind fetch-more *)

Lemma remotive_entry_keys (raw : job) (date : string) :
  remotive_entry raw date !! "title" = Some (dict_get raw "title")
  /\ remotive_entry raw date !! "company" = Some (dict_get raw "company_name")
  /\ remotive_entry raw date !! "location" = Some (Some "Remote")
  /\ remotive_entry raw date !! "salary" = Some (dict_get_or raw "salary" "Not specified")
  /\ remotive_entry raw date !! "link" = Some (dict_get raw "url")
  /\ remotive_entry raw date !! "source" = Some (Some "Remotive")
  /\ remotive_entry raw date !! "updated" = Some (Some date).
Proof. repeat split; reflexivity. Qed.

Lemma remotive_entry_listable (raw : job) (date : string) :
  listable (remotive_entry raw date).
Proof.
  destruct (remotive_entry_keys raw date) as (Ht & Hc & _ & _ & Hl & _).
  unfold listable. rewrite Ht, Hc, Hl. eauto.
Qed.

Section RemotiveFacts.

Local Open Scope list_scope.
Local Arguments Nat.leb : simpl never.

Variable remotive_get : string -> nat -> http_reply.
Variable published_recently : string -> res bool.

Lemma remotive_recent_entries (limit : nat) (raw_jobs recent : list job)
    (P : job -> Prop) :
  (forall raw date,
      raw ∈ raw_jobs -> dict_get raw "publication_date" = Some date -> date <> "" ->
      published_recently date <> Ok false ->
      P (remotive_entry raw date)) ->
  Forall P recent ->
  Forall P (remotive_recent published_recently limit raw_jobs recent).
Proof.
  revert recent. induction raw_jobs as [|raw raw_jobs IH]; intros recent HP Hrec;
    simpl; [exact Hrec|].
  assert (Hrec' : Forall P
            match dict_get raw "publication_date" with
            | Some (String _ _ as p) =>
                match published_recently p with
                | Ok false => recent
                | _ => recent ++ [remotive_entry raw p]
                end
            | _ => recent
            end).
  { destruct (dict_get raw "publication_date") as [[|c p]|] eqn:Hd; try exact Hrec.
    assert (Hentry : published_recently (String c p) <> Ok false ->
                     Forall P (recent ++ [remotive_entry raw (String c p)])).
    { intros Hr. apply Forall_app. split; [exact Hrec|].
      constructor; [|constructor].
      apply HP; [left|exact Hd|discriminate|exact Hr]. }
    destruct (published_recently (String c p)) as [[|]|e];
      [apply Hentry; discriminate|exact Hrec|apply Hentry; discriminate]. }
  match goal with |- context [if ?b then _ else _] => destruct b end;
    [exact Hrec'|].
  apply IH; [|exact Hrec'].
  intros raw' date Hin. apply HP. right. exact Hin.
Qed.

Lemma remotive_recent_no_limit (raw_jobs : list job) :
  (length (remotive_recent published_recently 0 raw_jobs []) <= 1)%nat.
Proof.
  destruct raw_jobs as [|raw raw_jobs]; simpl; [lia|].
  change (0 <=? ?n)%nat with true. cbv iota.
  destruct (dict_get raw "publication_date") as [[|c p]|]; simpl; try lia.
  destruct (published_recently (String c p)) as [[|]|e]; simpl; lia.
Qed.

(** X11: what the Remotive adapter returns.  Without a 200 reply the list
    is empty.  Otherwise every entry is built from a posting of the reply
    that carries a publication date which was not read as older than three
    days (a date that cannot be read counts as recent); a posting without a
    date is never listed.  Every entry has the keys [title], [company],
    [link], [salary] and [updated], with [location] fixed to [Remote] and
    [source] to [Remotive].  The list holds at most [limit] entries, at most
    one when [limit] is 0. *)
Theorem search_remotive_entries (keywords : string) (limit : nat) :
  let jobs := search_remotive remotive_get published_recently keywords limit in
  (forall status_code raw_jobs,
      remotive_get keywords limit = HttpReply status_code raw_jobs ->
      status_code <> 200 -> jobs = [])
  /\ (remotive_get keywords limit = HttpFailure -> jobs = [])
  /\ Forall (fun j =>
        exists status_code raw_jobs raw date,
          remotive_get keywords limit = HttpReply status_code raw_jobs
          /\ raw ∈ raw_jobs
          /\ dict_get raw "publication_date" = Some date /\ date <> ""
          /\ published_recently date <> Ok false
          /\ j = remotive_entry raw date) jobs
  /\ Forall (fun j =>
        listable j
        /\ is_Some (j !! "salary") /\ is_Some (j !! "updated")
        /\ j !! "location" = Some (Some "Remote")
        /\ j !! "source" = Some (Some "Remotive")) jobs
  /\ (length jobs <= Nat.max limit 1)%nat.
Proof.
  intros jobs. subst jobs. unfold search_remotive.
  destruct (remotive_get keywords limit) as [status raw_jobs|] eqn:Hget.
  2:{ repeat split; try constructor; simpl; lia. }
  destruct (Z.eqb_spec status 200) as [->|Hne].
  2:{ repeat split; try constructor; simpl; lia. }
  split; [intros ? ? [= <- <-] H; congruence|]. split; [discriminate|].
  split; [|split].
  - apply remotive_recent_entries; [|constructor].
    intros raw date Hin Hd Hne Hr. exists 200, raw_jobs, raw, date.
    repeat split; assumption.
  - apply remotive_recent_entries; [|constructor].
    intros raw date _ _ _ _.
    destruct (remotive_entry_keys raw date) as (_ & _ & Hloc & Hs & _ & Hsrc & Hu).
    split; [apply remotive_entry_listable|].
    rewrite Hs, Hu. repeat split; eauto.
  - destruct limit as [|limit].
    + pose proof (remotive_recent_no_limit raw_jobs). lia.
    + pose proof (remotive_recent_length published_recently (S limit) raw_jobs [])
        as H.
      simpl length in H. lia.
Qed.

End RemotiveFacts.

Section GoogleFacts.

Local Open Scope list_scope.

Lemma job_of_item_keys (location : option string) (item j : job) :
  GoogleSearchAPI.job_of_item location item = Ok j ->
  (exists title company,
      j !! "title" = Some (Some title) /\ j !! "company" = Some (Some company))
  /\ j !! "link" = Some (dict_get item "link")
  /\ j !! "location" = Some location
  /\ j !! "salary" = Some (Some "Check listing")
  /\ j !! "source" = Some (Some "LinkedIn (Google)")
  /\ j !! "snippet" = Some (dict_get_or item "snippet" "").
Proof.
  unfold GoogleSearchAPI.job_of_item.
  destruct (dict_get_or item "title" "Unknown Job") as [title_raw|]; [|discriminate].
  intros [= <-]. split; [eexists; eexists; split; reflexivity|].
  repeat split; reflexivity.
Qed.

Lemma jobs_of_items_keys (location : option string) (items jobs : list job) :
  GoogleSearchAPI.jobs_of_items location items = Ok jobs ->
  length jobs = length items
  /\ Forall (fun j => exists item, item ∈ items
                        /\ GoogleSearchAPI.job_of_item location item = Ok j) jobs.
Proof.
  revert jobs. induction items as [|item items IH]; intros jobs; simpl.
  - intros [= <-]. split; [reflexivity|constructor].
  - destruct (GoogleSearchAPI.job_of_item location item) as [j|e] eqn:Hj; [|discriminate].
    simpl. destruct (GoogleSearchAPI.jobs_of_items location items) as [js|e];
      [|discriminate].
    simpl. intros [= <-]. destruct (IH js eq_refl) as [Hlen Hall].
    split; [simpl; congruence|]. constructor.
    + exists item. split; [left|exact Hj].
    + eapply Forall_impl; [exact Hall|].
      intros j' (item' & Hin & Hj'). exists item'. split; [right; exact Hin|exact Hj'].
Qed.

Context {World : Type}.
Variable api_key cx : string.
Variable get : string -> World -> GoogleSearchAPI.reply * World.

(** X12: what the Google adapter returns.  Without a key or an engine id
    it makes no request and returns nothing.  After a 200 reply it returns
    one job per item, in order, unless some item has a null title, in which
    case the whole result is empty; any other reply gives an empty list.
    Every job returned has [title] and [company] set to strings, [link]
    copied from the item, [location] as asked for, and the fixed [salary]
    and [source]. *)
Theorem google_search_jobs_entries (keywords : string) (location : option string)
    (w : World) :
  let jobs := (GoogleSearchAPI.search_jobs api_key cx get keywords location w).1 in
  (api_key = "" \/ cx = "" ->
     GoogleSearchAPI.search_jobs api_key cx get keywords location w = ([], w))
  /\ (forall items w',
        api_key <> "" -> cx <> "" ->
        get (GoogleSearchAPI.query_of keywords location) w
        = (GoogleSearchAPI.Reply 200 items, w') ->
        (Forall (fun item => item !! "title" <> Some None) items ->
           length jobs = length items)
        /\ (Exists (fun item => item !! "title" = Some None) items -> jobs = []))
  /\ Forall (fun j =>
        listable j
        /\ (exists title company,
              j !! "title" = Some (Some title) /\ j !! "company" = Some (Some company))
        /\ j !! "location" = Some location
        /\ j !! "salary" = Some (Some "Check listing")
        /\ j !! "source" = Some (Some "LinkedIn (Google)")) jobs.
Proof.
  intros jobs. subst jobs. unfold GoogleSearchAPI.search_jobs.
  assert (Hitem : forall item,
            (item !! "title" = Some None
             /\ exists e, GoogleSearchAPI.job_of_item location item = Raise e)
            \/ (item !! "title" <> Some None
                /\ exists j, GoogleSearchAPI.job_of_item location item = Ok j)).
  { intros item. unfold GoogleSearchAPI.job_of_item, dict_get_or.
    destruct (item !! "title") as [[t|]|]; simpl.
    - right. split; [discriminate|eauto].
    - left. split; [reflexivity|eauto].
    - right. split; [discriminate|eauto]. }
  assert (Hitems : forall items,
            (Forall (fun item => item !! "title" <> Some None) items ->
               exists js, GoogleSearchAPI.jobs_of_items location items = Ok js)
            /\ (Exists (fun item => item !! "title" = Some None) items ->
                  exists e, GoogleSearchAPI.jobs_of_items location items = Raise e)).
  { induction items as [|item items [IHok IHbad]]; simpl.
    - split; [eauto|]. intros H. inversion H.
    - destruct (Hitem item) as [[Ht [e ->]]|[Ht [j ->]]]; simpl.
      + split; [|eauto]. intros Hall. exfalso. exact (Forall_inv Hall Ht).
      + split.
        * intros Hall. destruct (IHok (Forall_inv_tail Hall)) as [js ->]. simpl. eauto.
        * intros Hex. inversion Hex as [? ? H|? ? H]; subst; [congruence|].
          destruct (IHbad H) as [e ->]. simpl. eauto. }
  split.
  { intros [->| ->]; [reflexivity|]. rewrite orb_true_r. reflexivity. }
  split.
  { intros items w' Hk Hc Hget.
    apply String.eqb_neq in Hk, Hc. rewrite Hk, Hc, Hget. simpl.
    destruct (Hitems items) as [Hok Hbad]. split.
    - intros Hall. destruct (Hok Hall) as [js Hjs]. rewrite Hjs. simpl.
      apply (jobs_of_items_keys _ _ _ Hjs).
    - intros Hex. destruct (Hbad Hex) as [e ->]. reflexivity. }
  destruct (String.eqb api_key "" || String.eqb cx ""); [constructor|].
  destruct (get (GoogleSearchAPI.query_of keywords location) w) as [[status items|] w'];
    [|constructor].
  destruct (status =? 200); [|constructor]. simpl.
  destruct (GoogleSearchAPI.jobs_of_items location items) as [js|e] eqn:Hjs;
    [|constructor]. simpl.
  eapply Forall_impl; [exact (proj2 (jobs_of_items_keys _ _ _ Hjs))|].
  intros j (item & _ & Hj).
  destruct (job_of_item_keys _ _ _ Hj) as ((t & c & Ht & Hc) & Hl & Hloc & Hsal & Hsrc & _).
  split; [unfold listable; rewrite Ht, Hc, Hl; eauto|].
  split; [eauto|]. auto.
Qed.

End GoogleFacts.

Section FetchMoreNeverRaises.

Local Open Scope list_scope.

Context {World : Type}.
Variable remotive_get : string -> nat -> http_reply.
Variable published_recently : string -> res bool.
Variable expand_query : string -> list string.

Lemma search_remotive_listable (keywords : string) (limit : nat) :
  Forall listable (search_remotive remotive_get published_recently keywords limit).
Proof.
  unfold search_remotive.
  destruct (remotive_get keywords limit) as [status raw_jobs|]; [|constructor].
  destruct (status =? 200); [|constructor].
  apply remotive_recent_entries; [|constructor].
  intros raw date _ _ _ _. apply remotive_entry_listable.
Qed.

Lemma google_search_jobs_listable (api_key cx : string)
    (get : string -> World -> GoogleSearchAPI.reply * World)
    (keywords : string) (location : option string) (w : World) :
  Forall listable (GoogleSearchAPI.search_jobs api_key cx get keywords location w).1.
Proof.
  unfold GoogleSearchAPI.search_jobs.
  destruct (String.eqb api_key "" || String.eqb cx ""); [constructor|].
  destruct (get (GoogleSearchAPI.query_of keywords location) w) as [[status items|] w'];
    [|constructor].
  destruct (status =? 200); [|constructor]. simpl.
  destruct (GoogleSearchAPI.jobs_of_items location items) as [js|e] eqn:Hjs;
    [|constructor]. simpl.
  eapply Forall_impl; [exact (proj2 (jobs_of_items_keys _ _ _ Hjs))|].
  intros j (item & _ & Hj).
  destruct (job_of_item_keys _ _ _ Hj) as ((t & c & Ht & Hc) & Hl & _).
  unfold listable. rewrite Ht, Hc, Hl. eauto.
Qed.

Lemma add_unseen_all (P : job -> Prop) (jobs acc : list job)
    (seen : gset (option string)) :
  Forall P jobs -> Forall P acc -> Forall P (add_unseen jobs acc seen).1.
Proof.
  revert acc seen. induction jobs as [|j jobs IH]; intros acc seen Hjobs Hacc; simpl;
    [exact Hacc|].
  inversion Hjobs as [|? ? Hj Hrest]; subst.
  destruct (decide (link_of j ∈ seen)); apply IH; auto.
  apply Forall_app. split; [exact Hacc|]. constructor; [exact Hj|constructor].
Qed.

Lemma add_unseen_capped_all (P : job -> Prop) (jobs acc : list job)
    (seen : gset (option string)) :
  Forall P jobs -> Forall P acc -> Forall P (add_unseen_capped jobs acc seen).1.
Proof.
  revert acc seen. induction jobs as [|j jobs IH]; intros acc seen Hjobs Hacc; simpl;
    [exact Hacc|].
  inversion Hjobs as [|? ? Hj Hrest]; subst.
  assert (Hsnoc : Forall P (acc ++ [j])).
  { apply Forall_app. split; [exact Hacc|]. constructor; [exact Hj|constructor]. }
  destruct (decide (link_of j ∈ seen)); [apply IH; auto|].
  match goal with |- context [if ?b then _ else _] => destruct b end;
    [exact Hsnoc|apply IH; auto].
Qed.

Lemma search_variations_all (P : job -> Prop)
    (search_google : string -> option string -> World -> list job * World)
    (variations : list string) (location : option string) (acc : list job)
    (seen : gset (option string)) (w : World) :
  (forall var loc w', Forall P (search_google var loc w').1) ->
  Forall P acc ->
  Forall P (search_variations search_google variations location acc seen w).1.1.
Proof.
  intros Hgoogle. revert acc seen w.
  induction variations as [|var rest IH]; intros acc seen w Hacc; simpl; [exact Hacc|].
  match goal with |- context [if ?b then _ else _] => destruct b end; [exact Hacc|].
  pose proof (Hgoogle var location w) as Hg.
  destruct (search_google var location w) as [google_jobs w'].
  pose proof (add_unseen_capped_all P google_jobs acc seen Hg Hacc) as Hcap.
  destruct (add_unseen_capped google_jobs acc seen) as [acc' seen'].
  apply IH. exact Hcap.
Qed.

Lemma format_extra_jobs_listable (jobs : list job) (i : Z) (acc : string) :
  Forall listable jobs -> exists out, format_extra_jobs jobs i acc = Ok out.
Proof.
  intros Hall. revert i acc. induction Hall as [|j jobs Hj _ IH]; intros i acc; simpl.
  - eauto.
  - destruct Hj as ([t Ht] & [c Hc] & [l Hl]).
    unfold dict_item. rewrite Ht, Hc, Hl. simpl. apply IH.
Qed.

Lemma more_jobs_node_listable
    (search_google : string -> option string -> World -> list job * World)
    (s : JobAgentState) (w : World) :
  (forall var loc w', Forall listable (search_google var loc w').1) ->
  exists d,
    more_jobs_node remotive_get published_recently expand_query search_google s w = Ok d.
Proof.
  intros Hgoogle. unfold more_jobs_node.
  set (q := if truthy (search_query s) then search_query s
            else match recover_query (rev (messages s)) with
                 | Some q => Some q
                 | None => search_query s
                 end).
  destruct q as [[|c query]|]; [eauto| |eauto].
  assert (Hall : Forall listable
            (collect_extra_jobs remotive_get published_recently search_google s
               (String c query) (expand_query (String c query)) w).1).
  { unfold collect_extra_jobs.
    pose proof (add_unseen_all listable
                  (search_remotive remotive_get published_recently (String c query) 10)
                  [] (list_to_set (link_of <$> jobs_found s))
                  (search_remotive_listable _ _) (List.Forall_nil _)) as Hrem.
    destruct (add_unseen _ [] _) as [acc seen].
    pose proof (search_variations_all listable search_google
                  (expand_query (String c query)) (location s) acc seen w
                  Hgoogle Hrem) as Hvar.
    destruct (search_variations _ _ _ _ _ _) as [[acc' seen'] w']. exact Hvar. }
  destruct (collect_extra_jobs _ _ _ s (String c query) _ w) as [extra w'].
  destruct extra as [|j extra]; [eauto|].
  match goal with
  | |- context [format_extra_jobs ?l ?i ?a] =>
      destruct (format_extra_jobs_listable l i a Hall) as [out ->]
  end.
  simpl. eauto.
Qed.

(** X13: with the repository's own adapters fetch-more never raises.  The
    listing reads [title], [company] and [link] with [job[...]], which
    raises on a missing key; the Remotive and the Google adapter set these
    keys on every job they build, so for every reply of the two services
    the handler returns a dict. *)
Theorem fetch_more_never_raises (api_key cx : string)
    (get : string -> World -> GoogleSearchAPI.reply * World)
    (s : JobAgentState) (w : World) :
  exists d,
    more_jobs_node remotive_get published_recently expand_query
      (GoogleSearchAPI.search_jobs api_key cx get) s w = Ok d.
Proof.
  apply more_jobs_node_listable.
  intros var loc w'. apply google_search_jobs_listable.
Qed.

Lemma format_extra_jobs_raise (jobs : list job) (i : Z) (acc : string) (e : exn) :
  format_extra_jobs jobs i acc = Raise e ->
  exists key j,
    e = KeyError key /\ key ∈ ["title"; "company"; "link"]
    /\ j ∈ jobs /\ j !! key = None.
Proof.
  revert i acc. induction jobs as [|j jobs IH]; intros i acc; simpl; [discriminate|].
  unfold dict_item.
  destruct (j !! "title") as [t|] eqn:Ht; simpl.
  2:{ intros [= <-]. exists "title", j. repeat split; auto; [left|left]. }
  destruct (j !! "company") as [c|] eqn:Hc; simpl.
  2:{ intros [= <-]. exists "company", j. repeat split; auto; [right; left|left]. }
  destruct (j !! "link") as [l|] eqn:Hl; simpl.
  2:{ intros [= <-]. exists "link", j. repeat split; auto; [right; right; left|left]. }
  intros H. destruct (IH _ _ H) as (key & j' & He & Hk & Hin & Hnone).
  exists key, j'. repeat split; auto. right. exact Hin.
Qed.

(** X14: the only fault fetch-more can raise is the [KeyError] of its
    listing: when the handler raises, one of the jobs gathered in the turn
    lacks [title], [company] or [link], and the exception names that key. *)
Theorem fetch_more_raises_key_error
    (search_google : string -> option string -> World -> list job * World)
    (s : JobAgentState) (w : World) (e : exn) :
  more_jobs_node remotive_get published_recently expand_query search_google s w
  = Raise e ->
  exists key query j,
    e = KeyError key /\ key ∈ ["title"; "company"; "link"]
    /\ j ∈ (collect_extra_jobs remotive_get published_recently search_google s query
              (expand_query query) w).1
    /\ j !! key = None.
Proof.
  unfold more_jobs_node.
  set (q := if truthy (search_query s) then search_query s
            else match recover_query (rev (messages s)) with
                 | Some q => Some q
                 | None => search_query s
                 end).
  destruct q as [[|c query]|]; try discriminate.
  destruct (collect_extra_jobs _ _ _ s (String c query) _ w) as [extra w'] eqn:Hc.
  destruct extra as [|j extra]; [discriminate|].
  destruct (format_extra_jobs (j :: extra) _ _) as [out|e'] eqn:Hf; [discriminate|].
  intros [= <-].
  destruct (format_extra_jobs_raise _ _ _ _ Hf) as (key & j' & He & Hk & Hin & Hnone).
  exists key, (String c query), j'. rewrite Hc. auto.
Qed.

End FetchMoreNeverRaises.

Lemma fetch_more_raises_key_error_witness :
  more_jobs_node Samples.remotive_up Samples.all_recent Samples.no_expansion
    Samples.google_untitled Samples.searched tt = Raise (KeyError "title")
  /\ exists key query j,
       KeyError "title" = KeyError key /\ key ∈ ["title"; "company"; "link"]
       /\ j ∈ (collect_extra_jobs Samples.remotive_up Samples.all_recent
                 Samples.google_untitled Samples.searched query
                 (Samples.no_expansion query) tt).1
       /\ j !! key = None.
Proof.
  assert (H : more_jobs_node Samples.remotive_up Samples.all_recent
                Samples.no_expansion Samples.google_untitled Samples.searched tt
              = Raise (KeyError "title")) by (vm_compute; reflexivity).
  split; [exact H|].
  exact (fetch_more_raises_key_error Samples.remotive_up Samples.all_recent
           Samples.no_expansion Samples.google_untitled Samples.searched tt _ H).
Defined.

(** * The model on concrete inputs *)

Module Tests.

Example strip_blanks : strip "  a b  " = "a b".
Proof. reflexivity. Qed.

Example split_runs : split "  a  b c " = ["a"; "b"; "c"].
Proof. reflexivity. Qed.

Example replace_all : replace "/search x /search y" "/search" "" = " x  y".
Proof. reflexivity. Qed.

Example int_signed_blanks : int " -12 " = Some (-12).
Proof. reflexivity. Qed.

Example int_underscore : int "1_000" = Some 1000.
Proof. reflexivity. Qed.

Example int_double_underscore : int "1__0" = None.
Proof. reflexivity. Qed.

Example int_sign_only : int "+" = None.
Proof. reflexivity. Qed.

Example int_leading_zeros : int "007" = Some 7.
Proof. reflexivity. Qed.

Example int_inner_blank : int "1 2" = None.
Proof. reflexivity. Qed.

Example str_negative : str (-120) = "-120".
Proof. reflexivity. Qed.

Example lower_mixed : lower "/Search AbZ" = "/search abz".
Proof. reflexivity. Qed.

Example getitem_last : py_getitem [10; 20; 30] (-1) = Ok 30.
Proof. reflexivity. Qed.

Example getitem_out : py_getitem [10; 20; 30] 3 = Raise IndexError.
Proof. reflexivity. Qed.

Example range_three : py_range 0 10 4 = [0; 4; 8]%nat.
Proof. reflexivity. Qed.

Example route_two_words :
  router_node (with_message Samples.fresh "/search Python Developer")
  = [Set_current_action "search"; Set_search_query "python developer";
     Set_location "remote"].
Proof. reflexivity. Qed.

Example route_three_words :
  router_node (with_message Samples.fresh "/search senior python developer")
  = [Set_current_action "search"; Set_search_query "senior python";
     Set_location "developer"].
Proof. reflexivity. Qed.

Example route_location_only :
  router_node (with_message Samples.fresh "/search remote")
  = [Set_current_action "search"; Set_search_query ""; Set_location "remote"].
Proof. reflexivity. Qed.

Example route_search_alone :
  router_node (with_message Samples.fresh "/search")
  = [Set_current_action "help"; Set_response SEARCH_USAGE].
Proof. reflexivity. Qed.

Example route_customize_word :
  router_node (with_message Samples.fresh "/customize two")
  = [Set_current_action "help"; Set_response CUSTOMIZE_INVALID].
Proof. reflexivity. Qed.

Example route_negative :
  router_node (with_message Samples.fresh " -3 ")
  = [Set_current_action "customize"; Set_selected_job_index (-4)].
Proof. reflexivity. Qed.

Example route_plain_text :
  router_node (with_message Samples.fresh "which job suits me?")
  = [Set_current_action "chat"].
Proof. reflexivity. Qed.

Example route_no_message :
  router_node Samples.fresh = [Set_current_action "help"; Set_response HELP_MESSAGE].
Proof. reflexivity. Qed.

Example customize_out_of_range :
  customizer_node Samples.echo_llm
    (apply_delta Samples.searched [Set_selected_job_index 1])
  = Ok [Set_response "❌ Invalid job number. Please choose 1-1.";
        Set_error (Some "Invalid job index")].
Proof. reflexivity. Qed.

Example compose_without_documents :
  composer_node (fun _ => Ok "out/application.pdf") (fun _ => true) Samples.searched
  = [Set_response
       "❌ No customized resume or cover letter found. Please use /customize first.";
     Set_error (Some "Missing documents for composition")].
Proof. reflexivity. Qed.

End Tests.
